(** * Forensic document analysis service: a shallow embedding of [backend/app.py]

    The module embeds the [ForensicDocumentAnalyzer] class and the
    [/api/analyze] route of the Flask application.  Python values that
    reach the JSON response are modelled by [value]; code that prints,
    touches the filesystem, calls the external NLP helpers or raises is
    written in the monad [M], which threads a [World] (filesystem and
    event trace) and whose results are either a value or a raised
    exception, identified with its message [str(e)]. *)

From stdpp Require Import base option list strings gmap fin_maps pretty.
From Stdlib Require Import Ascii String ZArith Lia.

Set Warnings "-register-all".

Local Open Scope string_scope.
Local Open Scope list_scope.

(** ** Python strings

    [str] is modelled by [string]; [lower] folds the ASCII letters and
    leaves every other character unchanged. *)
Module Str.

Definition lower_ascii (c : ascii) : ascii :=
  let n := Ascii.nat_of_ascii c in
  if (65 <=? n)%nat && (n <=? 90)%nat then Ascii.ascii_of_nat (n + 32) else c.

(** [s.lower()] *)
Fixpoint lower (s : string) : string :=
  match s with
  | EmptyString => EmptyString
  | String c s' => String (lower_ascii c) (lower s')
  end.

(** [s.startswith(p)] *)
Fixpoint startswith (s p : string) : bool :=
  match p, s with
  | EmptyString, _ => true
  | String _ _, EmptyString => false
  | String a p', String b s' => if Ascii.eqb a b then startswith s' p' else false
  end.

(** [k in s] *)
Fixpoint contains (k s : string) : bool :=
  startswith s k ||
  match s with
  | EmptyString => false
  | String _ s' => contains k s'
  end.

(** [s.endswith(suf)] *)
Fixpoint endswith (s suf : string) : bool :=
  String.eqb s suf ||
  match s with
  | EmptyString => false
  | String _ s' => endswith s' suf
  end.

(** [s.split(sep)[0]] for a one-character separator: the characters
    before the first occurrence of [sep], all of [s] when there is none. *)
Fixpoint split_head (sep : ascii) (s : string) : string :=
  match s with
  | EmptyString => EmptyString
  | String c s' => if Ascii.eqb c sep then EmptyString else String c (split_head sep s')
  end.

(** [''.join(parts)] *)
Definition join (parts : list string) : string :=
  foldr String.app EmptyString parts.

(** [not s] *)
Definition is_empty (s : string) : bool :=
  match s with EmptyString => true | _ => false end.

End Str.

(** ** JSON-like Python values *)
Inductive value : Type :=
| VNone
| VInt (n : Z)
| VStr (s : string)
| VList (l : list value)
| VDict (d : list (string * value)).

Module Dict.

(** [d.get(k)] on a dictionary given by its items in insertion order. *)
Fixpoint get (k : string) (d : list (string * value)) : option value :=
  match d with
  | [] => None
  | (k', v) :: d' => if String.eqb k k' then Some v else get k d'
  end.

(** [d[k] = v]: the value is replaced in place when the key exists and
    the item is appended otherwise. *)
Fixpoint set (k : string) (v : value) (d : list (string * value))
  : list (string * value) :=
  match d with
  | [] => [(k, v)]
  | (k', v') :: d' =>
      if String.eqb k k' then (k, v) :: d' else (k', v') :: set k v d'
  end.

End Dict.

(** [k in v] for a dictionary [v]. *)
Definition has_key (k : string) (v : value) : bool :=
  match v with
  | VDict d => match Dict.get k d with Some _ => true | None => false end
  | _ => false
  end.

(** [v[k]] read as an optional field. *)
Definition field (k : string) (v : value) : option value :=
  match v with
  | VDict d => Dict.get k d
  | _ => None
  end.

Definition strs (l : list string) : value := VList (VStr <$> l).

(** ** spaCy documents *)
Record Token := { is_punct : bool; is_space : bool }.

Record Doc := { tokens : list Token; sents : list string }.

(** ** Effects *)
Inductive event : Type :=
| Print (msg : string)
| FileSave (path : string)
| FileOpen (path : string)
| FileRemove (path : string)
| CallExtractEntities (text : string)
| CallPreprocessText (text : string)
| CallSummarize (text method : string) (top_n : nat)
| CallNlp (text : string).

Record World := { fs : gmap string string; trace : list event }.

(** The outcome of running a piece of Python: a value, or an exception
    caught by [except Exception as e], carried as [str(e)]. *)
Inductive Res (A : Type) : Type :=
| Ok (a : A)
| Raise (msg : string).
Arguments Ok {A} a.
Arguments Raise {A} msg.

Definition M (A : Type) : Type := World -> Res A * World.

Definition ret {A} (a : A) : M A := fun w => (Ok a, w).

Definition raise {A} (msg : string) : M A := fun w => (Raise msg, w).

Definition bind {A B} (m : M A) (k : A -> M B) : M B :=
  fun w =>
    match m w with
    | (Ok a, w') => k a w'
    | (Raise msg, w') => (Raise msg, w')
    end.

(** [try: m  except Exception as e: h e] *)
Definition try_except {A} (m : M A) (h : string -> M A) : M A :=
  fun w =>
    match m w with
    | (Ok a, w') => (Ok a, w')
    | (Raise msg, w') => h msg w'
    end.

(** [try: m  finally: c]: [c] runs whatever the outcome of [m], which is
    then resumed unless [c] itself raises. *)
Definition finally {A} (m : M A) (c : M unit) : M A :=
  fun w =>
    match m w with
    | (r, w') =>
        match c w' with
        | (Ok _, w'') => (r, w'')
        | (Raise msg, w'') => (Raise msg, w'')
        end
    end.

(** Lifting of the result of an external call. *)
Definition lift {A} (r : Res A) : M A := fun w => (r, w).

Definition emit (e : event) : M unit :=
  fun w => (Ok tt, {| fs := fs w; trace := trace w ++ [e] |}).

Definition print (msg : string) : M unit := emit (Print msg).

Declare Scope py_scope.
Delimit Scope py_scope with py.
Notation "'let*' x ':=' m 'in' k" := (bind m (fun x => k))
  (at level 10, x name, m at level 100, k at level 200) : py_scope.
Local Open Scope py_scope.

(** ** External collaborators

    What the application imports and does not define: the helpers of
    [nlp_module], the spaCy pipeline [nlp], the PDF reader, the two
    generators used by the route, and the ways in which the operating
    system can refuse to write or delete the uploaded file. *)
Record Externals := {
  (** [nlp_module.text_preprocessing.extract_entities(text)] *)
  extract_entities : string -> Res (gmap string (list string));
  (** [nlp_module.text_preprocessing.preprocess_text(text)] *)
  preprocess_text : string -> Res string;
  (** [nlp_module.extractive_summarization.summarize(text, method, top_n)] *)
  summarize : string -> string -> nat -> Res string;
  (** [nlp(text)] *)
  nlp : string -> Res Doc;
  (** [PyPDF2.PdfReader(file).pages] for a file with the given bytes,
      each page with the outcome of its [extract_text()] *)
  pdf_pages : string -> Res (list (Res string));
  (** [str(uuid.uuid4())] *)
  uuid4 : string;
  (** [datetime.datetime.now().isoformat()] *)
  now_isoformat : string;
  (** [file.save] failing: the message and what was written, if anything *)
  save_fault : option (string * option string);
  (** [os.remove] failing: the message *)
  remove_fault : option string
}.

Definition UPLOAD_FOLDER : string := "uploads".

(** [os.path.join(a, b)] for a relative [b]. *)
Definition path_join (a b : string) : string := a +:+ "/" +:+ b.

Section Analyzer.

Variable ext : Externals.

(** *** Filesystem *)

(** [open(path, 'rb').read()] *)
Definition open_rb (path : string) : M string :=
  fun w =>
    let w' := {| fs := fs w; trace := trace w ++ [FileOpen path] |} in
    match fs w !! path with
    | Some bytes => (Ok bytes, w')
    | None => (Raise ("[Errno 2] No such file or directory: '" +:+ path +:+ "'"), w')
    end.

(** [os.path.exists(path)] *)
Definition path_exists (path : string) : M bool :=
  fun w => (Ok (match fs w !! path with Some _ => true | None => false end), w).

(** [file.save(path)] for an upload with the given content *)
Definition file_save (content path : string) : M unit :=
  fun w =>
    let tr := trace w ++ [FileSave path] in
    match save_fault ext with
    | None => (Ok tt, {| fs := <[path := content]> (fs w); trace := tr |})
    | Some (msg, Some partial) =>
        (Raise msg, {| fs := <[path := partial]> (fs w); trace := tr |})
    | Some (msg, None) => (Raise msg, {| fs := fs w; trace := tr |})
    end.

(** [os.remove(path)] *)
Definition os_remove (path : string) : M unit :=
  fun w =>
    let tr := trace w ++ [FileRemove path] in
    match remove_fault ext with
    | Some msg => (Raise msg, {| fs := fs w; trace := tr |})
    | None =>
        match fs w !! path with
        | Some _ => (Ok tt, {| fs := delete path (fs w); trace := tr |})
        | None =>
            (Raise ("[Errno 2] No such file or directory: '" +:+ path +:+ "'"),
             {| fs := fs w; trace := tr |})
        end
    end.

(** *** [ForensicDocumentAnalyzer] *)

Definition summary_method : string := "hybrid".

(** [''.join(page.extract_text() for page in reader.pages)]: the pages
    are read in order and the first failing one aborts the join. *)
Fixpoint join_pages (pages : list (Res string)) : Res string :=
  match pages with
  | [] => Ok ""
  | Ok t :: rest =>
      match join_pages rest with
      | Ok ts => Ok (t +:+ ts)
      | Raise msg => Raise msg
      end
  | Raise msg :: _ => Raise msg
  end.

Definition extract_text_from_pdf (pdf_path : string) : M string :=
  try_except
    (let* file := open_rb pdf_path in
     let* pages := lift (pdf_pages ext file) in
     let* text := lift (join_pages pages) in
     ret text)
    (fun e =>
       let* _ := print ("Error extracting text from PDF: " +:+ e) in
       ret "").

(** [l[0]] *)
Definition index0 (l : list string) : M value :=
  match l with
  | x :: _ => ret (VStr x)
  | [] => raise "list index out of range"
  end.

(** Truth value of [entities.get(k)]: a missing key gives [None] and an
    empty list is falsy. *)
Definition truthy_get (k : string) (entities : gmap string (list string)) : bool :=
  match entities !! k with
  | Some (_ :: _) => true
  | _ => false
  end.

Definition extract_metadata (text : string) : M value :=
  try_except
    (let* _ := emit (CallExtractEntities text) in
     let* entities := lift (extract_entities ext text) in
     let dates := take 3 (default [] (entities !! "DATE")) in
     let* case_number :=
       (if truthy_get "CASE_ID" entities
        then index0 (default ["Unknown"] (entities !! "CASE_ID"))
        else ret VNone) in
     let people := take 5 (default [] (entities !! "PERSON")) in
     let organizations := take 3 (default [] (entities !! "ORG")) in
     let locations := take 3 (default [] (entities !! "GPE")) in
     ret (VDict [("dates", strs dates);
                 ("case_number", case_number);
                 ("people", strs people);
                 ("organizations", strs organizations);
                 ("locations", strs locations)]))
    (fun e =>
       let* _ := print ("Error extracting metadata: " +:+ e) in
       ret (VDict [("error", VStr e)])).

Definition keywords : list string :=
  ["conclude"; "conclusion"; "finding"; "results"; "determine"; "identified";
   "match"; "consistent with"; "evidence indicates"; "analysis shows";
   "examination revealed"; "tested positive"; "comparison"; "probability"].

(** [any(keyword in sentence.lower() for keyword in keywords)] *)
Definition mentions_keyword (sentence : string) : bool :=
  existsb (fun keyword => Str.contains keyword (Str.lower sentence)) keywords.

(** The loop [for sentence in sentences: if ...: findings.append(sentence)],
    from the findings collected so far. *)
Fixpoint collect_findings (findings sentences : list string) : list string :=
  match sentences with
  | [] => findings
  | sentence :: rest =>
      if mentions_keyword sentence
      then collect_findings (findings ++ [sentence]) rest
      else collect_findings findings rest
  end.

Definition extract_forensic_findings (text : string) : M (list string) :=
  try_except
    (let* _ := emit (CallNlp text) in
     let* doc := lift (nlp ext text) in
     let sentences := sents doc in
     let findings := collect_findings [] sentences in
     ret (take 5 findings))
    (fun e =>
       let* _ := print ("Error extracting findings: " +:+ e) in
       ret []).

Definition is_word (t : Token) : bool := negb (is_punct t) && negb (is_space t).

Definition analyze_document (file_path : string) (summary_length : nat) : M value :=
  try_except
    (let* text := extract_text_from_pdf file_path in
     if Str.is_empty text
     then ret (VDict [("error", VStr "Could not extract text from PDF")])
     else
       let* _ := emit (CallPreprocessText text) in
       let* preprocessed_text := lift (preprocess_text ext text) in
       let* metadata := extract_metadata text in
       let* _ := emit (CallSummarize text summary_method summary_length) in
       let* summary := lift (summarize ext text summary_method summary_length) in
       let* findings := extract_forensic_findings text in
       let* _ := emit (CallNlp text) in
       let* doc := lift (nlp ext text) in
       let word_count := List.length (List.filter is_word (tokens doc)) in
       let sentence_count := List.length (sents doc) in
       let* _ := emit (CallNlp summary) in
       let* sdoc := lift (nlp ext summary) in
       let summary_word_count := List.length (tokens sdoc) in
       ret (VDict [("metadata", metadata);
                   ("summary", VStr summary);
                   ("key_findings", strs findings);
                   ("statistics",
                    VDict [("word_count", VInt (Z.of_nat word_count));
                           ("sentence_count", VInt (Z.of_nat sentence_count));
                           ("summary_length", VInt (Z.of_nat summary_word_count))])]))
    (fun e =>
       let* _ := print ("Error analyzing document: " +:+ e) in
       ret (VDict [("error", VStr e)])).

End Analyzer.

(** ** The HTTP route [POST /api/analyze] *)

(** An uploaded file of [request.files]. *)
Record FileStorage := { filename : string; stream : string }.

Record Request := {
  files : gmap string FileStorage;
  form : gmap string string
}.

(** A Flask response: [jsonify(body), status]. *)
Record Response := { status : nat; body : value }.

Definition jsonify (v : value) (code : nat) : Response :=
  {| status := code; body := v |}.

(** Interpolation [f"{v}"] of the values the route prints. *)
Definition fmt (v : value) : string :=
  match v with
  | VNone => "None"
  | VInt n => pretty n
  | VStr s => s
  | VList _ => "[...]"
  | VDict _ => "{...}"
  end.

(** [v[k]] *)
Definition getitem (v : value) (k : string) : M value :=
  match field k v with
  | Some x => ret x
  | None => raise ("'" +:+ k +:+ "'")
  end.

(** [v[k] = x] *)
Definition setitem (v : value) (k : string) (x : value) : value :=
  match v with
  | VDict d => VDict (Dict.set k x d)
  | _ => v
  end.

(** The [if]/[elif] chain that maps [summary_detail] to [summary_length]. *)
Definition summary_length (summary_detail : string) : nat :=
  if String.eqb summary_detail "brief" then 3
  else if String.eqb summary_detail "standard" then 5
  else if String.eqb summary_detail "detailed" then 8
  else if String.eqb summary_detail "comprehensive" then 12
  else 5.

Section Route.

Variable ext : Externals.

(** The [finally] block of the route. *)
Definition cleanup (file_path : string) : M unit :=
  let* there := path_exists file_path in
  if there : bool
  then
    try_except
      (let* _ := os_remove ext file_path in
       print ("Temporary file removed: " +:+ file_path))
      (fun e => print ("Error removing file: " +:+ e))
  else ret tt.

(** The [try] block of the route. *)
Definition process (req : Request) (file : FileStorage)
    (name file_path : string) : M Response :=
  let* _ := file_save ext (stream file) file_path in
  let* _ := print ("File saved: " +:+ file_path) in
  let summary_detail := default "auto" (form req !! "summary_detail") in
  let top_n := summary_length summary_detail in
  let target_language := default "original" (form req !! "target_language") in
  let* _ := print ("Processing file: " +:+ filename file) in
  let* _ := print ("Summary detail: " +:+ summary_detail
                    +:+ ", Length: " +:+ pretty top_n) in
  let* _ := print ("Target language: " +:+ target_language) in
  let* result := analyze_document ext file_path top_n in
  let* _ :=
    (if has_key "error" result
     then
       let* e := getitem result "error" in
       print ("Analysis error: " +:+ fmt e)
     else
       let* stats := getitem result "statistics" in
       let* n := getitem stats "summary_length" in
       print ("Analysis completed. Summary length: " +:+ fmt n +:+ " words")) in
  if has_key "error" result
  then ret (jsonify result 500)
  else
    let result :=
      setitem result "document"
        (VDict [("filename", VStr (filename file));
                ("analyzed_at", VStr (now_isoformat ext));
                ("id", VStr (Str.split_head "." name))]) in
    ret (jsonify result 200).

(** [analyze_document()], the view function of the route.  The truth
    value of [file] in [if file and ...] is that of its file name. *)
Definition api_analyze (req : Request) : M Response :=
  match files req !! "file" with
  | None =>
      let* _ := print "No file part in request" in
      ret (jsonify (VDict [("error", VStr "No file part")]) 400)
  | Some file =>
      if String.eqb (filename file) ""
      then
        let* _ := print "No selected file" in
        ret (jsonify (VDict [("error", VStr "No selected file")]) 400)
      else if negb (Str.is_empty (filename file)) && Str.endswith (filename file) ".pdf"
      then
        let name := uuid4 ext +:+ ".pdf" in
        let file_path := path_join UPLOAD_FOLDER name in
        finally
          (try_except
             (process req file name file_path)
             (fun e =>
                let* _ := print ("Exception in analyze_document: " +:+ e) in
                ret (jsonify (VDict [("error", VStr e)]) 500)))
          (cleanup file_path)
      else
        let* _ := print "File must be a PDF" in
        ret (jsonify (VDict [("error", VStr "File must be a PDF")]) 400)
  end.

End Route.

(** ** The health check [GET /api/test] *)
Definition test_api : M Response :=
  ret (jsonify (VDict [("status", VStr "API is working")]) 200).

(** ** Construction of the analyzer

    [self.stop_words = nlp.Defaults.stop_words] binds the attribute to
    the set object of the model's defaults, it does not copy it: the
    [discard] calls of [__init__] therefore change that shared object,
    which is kept in [Defaults_stop_words] of the process state. *)
Record Process := { Defaults_stop_words : gset string }.

(** An analyzer object; its [stop_words] attribute is the shared set. *)
Record ForensicDocumentAnalyzer := {
  keep_terms : list string;
  analyzer_summary_method : string
}.

(** [self.stop_words], read through the reference. *)
Definition stop_words (self : ForensicDocumentAnalyzer) (p : Process) : gset string :=
  Defaults_stop_words p.

(** The literal [{'evidence', ..., 'conclusion'}]. *)
Definition KEEP_TERMS : list string :=
  ["evidence"; "analysis"; "sample"; "dna"; "fingerprint"; "forensic";
   "examination"; "report"; "case"; "specimen"; "conclusion"].

(** [s.discard(term)]: removes the term if present, no error otherwise. *)
Definition discard (term : string) (s : gset string) : gset string := s ∖ {[ term ]}.

(** [ForensicDocumentAnalyzer.__init__]; a Python set is iterated in an
    order of its own, which is the list [order] of the terms. *)
Definition init (order : list string) (p : Process)
  : ForensicDocumentAnalyzer * Process :=
  let stop_words := foldl (fun s term => discard term s) (Defaults_stop_words p) order in
  ({| keep_terms := order; analyzer_summary_method := "hybrid" |},
   {| Defaults_stop_words := stop_words |}).

(** * Derived descriptions of the runs

    The definitions of this part do not come from the source: they name
    the value and the events that a run of each method produces, and the
    lemmas of the next part prove that the embedded code produces them. *)

Definition log (w : World) (evs : list event) : World :=
  {| fs := fs w; trace := trace w ++ evs |}.

Section Denotation.

Variable ext : Externals.

(** The [case_number] entry computed from the entities. *)
Definition case_number_of (entities : gmap string (list string)) : value :=
  match entities !! "CASE_ID" with
  | Some (c :: _) => VStr c
  | _ => VNone
  end.

(** What [extract_text_from_pdf] reads at [path] in a filesystem. *)
Definition read_pdf (files : gmap string string) (path : string) : Res string :=
  match files !! path with
  | None => Raise ("[Errno 2] No such file or directory: '" +:+ path +:+ "'")
  | Some bytes =>
      match pdf_pages ext bytes with
      | Ok pages => join_pages pages
      | Raise e => Raise e
      end
  end.

Definition failed (e : string) : value := VDict [("error", VStr e)].

(** The events of [extract_metadata] and its value. *)
Definition metadata_events (text : string) : list event :=
  match extract_entities ext text with
  | Ok _ => [CallExtractEntities text]
  | Raise e => [CallExtractEntities text; Print ("Error extracting metadata: " +:+ e)]
  end.

Definition metadata_of (text : string) : value :=
  match extract_entities ext text with
  | Ok entities =>
      VDict [("dates", strs (take 3 (default [] (entities !! "DATE"))));
             ("case_number", case_number_of entities);
             ("people", strs (take 5 (default [] (entities !! "PERSON"))));
             ("organizations", strs (take 3 (default [] (entities !! "ORG"))));
             ("locations", strs (take 3 (default [] (entities !! "GPE"))))]
  | Raise e => failed e
  end.

(** The stages of [analyze_document] that follow a successful text
    extraction: the result and the events, in order. *)
Definition pipeline (text : string) (n : nat) : value * list event :=
  let boom e evs := (failed e, evs ++ [Print ("Error analyzing document: " +:+ e)]) in
  match preprocess_text ext text with
  | Raise e => boom e [CallPreprocessText text]
  | Ok _ =>
      let evs1 := CallPreprocessText text :: metadata_events text
                  ++ [CallSummarize text summary_method n] in
      match summarize ext text summary_method n with
      | Raise e => boom e evs1
      | Ok summary =>
          match nlp ext text with
          | Raise e =>
              boom e (evs1 ++ [CallNlp text;
                               Print ("Error extracting findings: " +:+ e);
                               CallNlp text])
          | Ok doc =>
              let evs2 := evs1 ++ [CallNlp text; CallNlp text; CallNlp summary] in
              match nlp ext summary with
              | Raise e => boom e evs2
              | Ok sdoc =>
                  (VDict [("metadata", metadata_of text);
                          ("summary", VStr summary);
                          ("key_findings",
                           strs (take 5 (List.filter mentions_keyword (sents doc))));
                          ("statistics",
                           VDict [("word_count",
                                   VInt (Z.of_nat (List.length (List.filter is_word (tokens doc)))));
                                  ("sentence_count",
                                   VInt (Z.of_nat (List.length (sents doc))));
                                  ("summary_length",
                                   VInt (Z.of_nat (List.length (tokens sdoc))))])],
                   evs2)
              end
          end
      end
  end.

(** The value and the events of [analyze_document] in a filesystem. *)
Definition analysis (files0 : gmap string string) (path : string) (n : nat)
  : value * list event :=
  match read_pdf files0 path with
  | Raise e =>
      (failed "Could not extract text from PDF",
       [FileOpen path; Print ("Error extracting text from PDF: " +:+ e)])
  | Ok text =>
      if Str.is_empty text
      then (failed "Could not extract text from PDF", [FileOpen path])
      else ((pipeline text n).1, FileOpen path :: (pipeline text n).2)
  end.

(** The generated file name and the path the upload is saved at. *)
Definition upload_name : string := uuid4 ext +:+ ".pdf".
Definition upload_path : string := path_join UPLOAD_FOLDER upload_name.

(** The target length the route derives from the form. *)
Definition requested_length (req : Request) : nat :=
  summary_length (default "auto" (form req !! "summary_detail")).

(** The line printed after the analysis. *)
Definition debug_line (result : value) : string :=
  match field "error" result with
  | Some e => "Analysis error: " +:+ fmt e
  | None =>
      match field "statistics" result ≫= field "summary_length" with
      | Some n => "Analysis completed. Summary length: " +:+ fmt n +:+ " words"
      | None => ""
      end
  end.

(** The response built from the result of the analysis. *)
Definition respond (file : FileStorage) (result : value) : Response :=
  if has_key "error" result
  then jsonify result 500
  else
    jsonify
      (setitem result "document"
         (VDict [("filename", VStr (filename file));
                 ("analyzed_at", VStr (now_isoformat ext));
                 ("id", VStr (Str.split_head "." upload_name))]))
      200.

(** The filesystem when the [try] block of the route is left. *)
Definition saved (file : FileStorage) (files0 : gmap string string)
  : gmap string string :=
  match save_fault ext with
  | None => <[upload_path := stream file]> files0
  | Some (_, Some partial) => <[upload_path := partial]> files0
  | Some (_, None) => files0
  end.

(** The filesystem and the events of the [finally] block. *)
Definition cleaned (files0 : gmap string string) : gmap string string :=
  match files0 !! upload_path, remove_fault ext with
  | Some _, None => delete upload_path files0
  | _, _ => files0
  end.

Definition cleanup_events (files0 : gmap string string) : list event :=
  match files0 !! upload_path, remove_fault ext with
  | Some _, None =>
      [FileRemove upload_path; Print ("Temporary file removed: " +:+ upload_path)]
  | Some _, Some e =>
      [FileRemove upload_path; Print ("Error removing file: " +:+ e)]
  | None, _ => []
  end.

(** The response and the events of the [try]/[except] of the route. *)
Definition attempt (req : Request) (file : FileStorage)
    (files0 : gmap string string) : Response * list event :=
  match save_fault ext with
  | Some (e, _) =>
      (jsonify (failed e) 500,
       [FileSave upload_path; Print ("Exception in analyze_document: " +:+ e)])
  | None =>
      let n := requested_length req in
      let a := analysis (saved file files0) upload_path n in
      (respond file a.1,
       [FileSave upload_path;
        Print ("File saved: " +:+ upload_path);
        Print ("Processing file: " +:+ filename file);
        Print ("Summary detail: " +:+ default "auto" (form req !! "summary_detail")
               +:+ ", Length: " +:+ pretty n);
        Print ("Target language: " +:+ default "original" (form req !! "target_language"))]
       ++ a.2 ++ [Print (debug_line a.1)])
  end.

End Denotation.

(** The upload that passes the checks of the route, if any. *)
Definition upload (req : Request) : option FileStorage :=
  match files req !! "file" with
  | Some file =>
      if negb (String.eqb (filename file) "") && Str.endswith (filename file) ".pdf"
      then Some file
      else None
  | None => None
  end.

(** A result of the analysis is an error dictionary or carries the
    statistics, never both. *)
Definition error_shape (r : value) : Prop := exists e, r = failed e.

Definition report_shape (r : value) : Prop :=
  has_key "error" r = false /\
  exists stats k, field "statistics" r = Some stats /\
                  field "summary_length" stats = Some (VInt k).

(** ** Variations of the collaborators *)

Definition with_extract_entities (ext : Externals)
    (f : string -> Res (gmap string (list string))) : Externals :=
  {| extract_entities := f;
     preprocess_text := preprocess_text ext;
     summarize := summarize ext;
     nlp := nlp ext;
     pdf_pages := pdf_pages ext;
     uuid4 := uuid4 ext;
     now_isoformat := now_isoformat ext;
     save_fault := save_fault ext;
     remove_fault := remove_fault ext |}.

Definition with_preprocess_text (ext : Externals) (f : string -> Res string) : Externals :=
  {| extract_entities := extract_entities ext;
     preprocess_text := f;
     summarize := summarize ext;
     nlp := nlp ext;
     pdf_pages := pdf_pages ext;
     uuid4 := uuid4 ext;
     now_isoformat := now_isoformat ext;
     save_fault := save_fault ext;
     remove_fault := remove_fault ext |}.

Definition with_summarize (ext : Externals)
    (f : string -> string -> nat -> Res string) : Externals :=
  {| extract_entities := extract_entities ext;
     preprocess_text := preprocess_text ext;
     summarize := f;
     nlp := nlp ext;
     pdf_pages := pdf_pages ext;
     uuid4 := uuid4 ext;
     now_isoformat := now_isoformat ext;
     save_fault := save_fault ext;
     remove_fault := remove_fault ext |}.

Definition with_remove_fault (ext : Externals) (fault : option string) : Externals :=
  {| extract_entities := extract_entities ext;
     preprocess_text := preprocess_text ext;
     summarize := summarize ext;
     nlp := nlp ext;
     pdf_pages := pdf_pages ext;
     uuid4 := uuid4 ext;
     now_isoformat := now_isoformat ext;
     save_fault := save_fault ext;
     remove_fault := fault |}.

(** Two preprocessors that raise on the same texts, with the same
    messages, and may differ in every string they return. *)
Definition same_failures (pp1 pp2 : string -> Res string) : Prop :=
  forall text,
    match pp1 text, pp2 text with
    | Ok _, Ok _ => True
    | Raise e1, Raise e2 => e1 = e2
    | _, _ => False
    end.

(** What an event of the analysis of [text] may read: the helpers are
    called on the raw text, and the model on it or on the summary. *)
Definition reads (ext : Externals) (text : string) (n : nat) (ev : event) : Prop :=
  match ev with
  | CallPreprocessText t | CallExtractEntities t => t = text
  | CallSummarize t method top_n => t = text /\ method = summary_method /\ top_n = n
  | CallNlp t => t = text \/ summarize ext text summary_method n = Ok t
  | _ => True
  end.

(** The list stored under [key], empty when there is none. *)
Definition entries (key : string) (v : value) : list value :=
  match field key v with
  | Some (VList l) => l
  | _ => []
  end.

(** ** The findings filter in the words of the specification

    A sentence is flagged when its lowercased form contains one of the
    fixed terms; containment is stated by splitting the text, without
    the search procedure of the code. *)
Definition flagged (sentence : string) : Prop :=
  exists keyword before after,
    In keyword
       ["conclude"; "conclusion"; "finding"; "results"; "determine"; "identified";
        "match"; "consistent with"; "evidence indicates"; "analysis shows";
        "examination revealed"; "tested positive"; "comparison"; "probability"] /\
    Str.lower sentence = before +:+ keyword +:+ after.

(** ** Vocabulary of the further properties *)

(** The path a file event touches. *)
Definition touched (ev : event) : option string :=
  match ev with
  | FileSave p | FileOpen p | FileRemove p => Some p
  | _ => None
  end.

(** The events that call a helper of the analysis or the model. *)
Definition is_call (ev : event) : bool :=
  match ev with
  | CallExtractEntities _ | CallPreprocessText _ | CallSummarize _ _ _ | CallNlp _ => true
  | _ => false
  end.

(** The metadata lists: field, entity label and bound. *)
Definition categories : list (string * string * nat) :=
  [("dates", "DATE", 3); ("people", "PERSON", 5);
   ("organizations", "ORG", 3); ("locations", "GPE", 3)].

(** A successful result of [analyze_document]: its four entries, with the
    findings bounded by 5 and by the number of sentences. *)
Definition well_formed_report (r : value) : Prop :=
  exists metadata summary findings word_count sentence_count summary_words,
    r = VDict [("metadata", metadata);
               ("summary", VStr summary);
               ("key_findings", strs findings);
               ("statistics",
                VDict [("word_count", VInt word_count);
                       ("sentence_count", VInt sentence_count);
                       ("summary_length", VInt summary_words)])] /\
    List.length findings <= 5 /\
    (Z.of_nat (List.length findings) <= sentence_count)%Z /\
    (0 <= word_count)%Z /\ (0 <= summary_words)%Z.

(** The [document] entry of a successful response. *)
Definition document_entry (ext : Externals) (file : FileStorage) : value :=
  VDict [("filename", VStr (filename file));
         ("analyzed_at", VStr (now_isoformat ext));
         ("id", VStr (Str.split_head "." (uuid4 ext +:+ ".pdf")))].

(** ** A concrete deployment, for examples *)
Module Sample.

Definition word : Token := {| is_punct := false; is_space := false |}.
Definition period : Token := {| is_punct := true; is_space := false |}.
Definition blank : Token := {| is_punct := false; is_space := true |}.

(** A parser that finds two sentences in every text. *)
Definition parse (text : string) : Doc :=
  {| tokens := [word; word; blank; word; period];
     sents := ["The analysis shows a MATCH."; "Nothing to see here."] |}.

Definition found : gmap string (list string) :=
  <["DATE" := ["1 May"; "2 May"; "3 May"; "4 May"]]>
    (<["PERSON" := ["Ada Lovelace"]]> ∅).

Definition ext : Externals :=
  {| extract_entities := fun _ => Ok found;
     preprocess_text := fun text => Ok (Str.lower text);
     summarize := fun _ _ _ => Ok "Two words.";
     nlp := fun text => Ok (parse text);
     pdf_pages := fun bytes => Ok [Ok bytes; Ok " (page 2)"];
     uuid4 := "0b0e7a3c-5d2f-4c1b-9a57-3f2a6c1d9e10";
     now_isoformat := "2024-05-01T12:00:00";
     save_fault := None;
     remove_fault := None |}.

Definition pdf : FileStorage := {| filename := "report.pdf"; stream := "Lab report" |}.

Definition request : Request :=
  {| files := {[ "file" := pdf ]};
     form := {[ "summary_detail" := "brief" ]} |}.

(** An upload whose name ends in upper-case ".PDF". *)
Definition wrong_suffix : Request :=
  {| files := {[ "file" := {| filename := "notes.PDF"; stream := "x" |} ]};
     form := ∅ |}.

Definition world : World := {| fs := ∅; trace := [] |}.

(** A world in which a PDF is stored. *)
Definition stored : World :=
  {| fs := {[ "uploads/a.pdf" := "Lab report" ]}; trace := [] |}.

(** The entity extractor fails. *)
Definition broken_ner : Externals :=
  with_extract_entities ext (fun _ => Raise "model not loaded").

(** The summarizer fails. *)
Definition broken_summarizer : Externals :=
  with_summarize ext (fun _ _ _ => Raise "empty vocabulary").

(** The operating system refuses to delete the upload. *)
Definition locked : Externals := with_remove_fault ext (Some "Permission denied").

End Sample.

(** * Properties *)

(** ** The model at work *)

Example lower_folds_ascii : Str.lower "Tested POSITIVE (K-9)" = "tested positive (k-9)".
Proof. reflexivity. Qed.

Example keyword_found : mentions_keyword "The sample Tested Positive for lead." = true.
Proof. reflexivity. Qed.

Example keyword_absent : mentions_keyword "Nothing to see here." = false.
Proof. reflexivity. Qed.

Example suffix_is_case_sensitive :
  Str.endswith "report.pdf" ".pdf" = true /\ Str.endswith "notes.PDF" ".pdf" = false.
Proof. split; reflexivity. Qed.

Example generated_id : Str.split_head "." (upload_name Sample.ext) = uuid4 Sample.ext.
Proof. reflexivity. Qed.

Example sample_response :
  (api_analyze Sample.ext Sample.request Sample.world).1
  = Ok {| status := 200;
          body :=
            VDict
              [("metadata",
                VDict [("dates", strs ["1 May"; "2 May"; "3 May"]);
                       ("case_number", VNone);
                       ("people", strs ["Ada Lovelace"]);
                       ("organizations", strs []);
                       ("locations", strs [])]);
               ("summary", VStr "Two words.");
               ("key_findings", strs ["The analysis shows a MATCH."]);
               ("statistics",
                VDict [("word_count", VInt 3);
                       ("sentence_count", VInt 2);
                       ("summary_length", VInt 5)]);
               ("document",
                VDict [("filename", VStr "report.pdf");
                       ("analyzed_at", VStr "2024-05-01T12:00:00");
                       ("id", VStr "0b0e7a3c-5d2f-4c1b-9a57-3f2a6c1d9e10")])] |}.
Proof. vm_compute. reflexivity. Qed.

Example sample_trace :
  trace (api_analyze Sample.ext Sample.request Sample.world).2
  = [FileSave "uploads/0b0e7a3c-5d2f-4c1b-9a57-3f2a6c1d9e10.pdf";
     Print "File saved: uploads/0b0e7a3c-5d2f-4c1b-9a57-3f2a6c1d9e10.pdf";
     Print "Processing file: report.pdf";
     Print "Summary detail: brief, Length: 3";
     Print "Target language: original";
     FileOpen "uploads/0b0e7a3c-5d2f-4c1b-9a57-3f2a6c1d9e10.pdf";
     CallPreprocessText "Lab report (page 2)";
     CallExtractEntities "Lab report (page 2)";
     CallSummarize "Lab report (page 2)" "hybrid" 3;
     CallNlp "Lab report (page 2)";
     CallNlp "Lab report (page 2)";
     CallNlp "Two words.";
     Print "Analysis completed. Summary length: 5 words";
     FileRemove "uploads/0b0e7a3c-5d2f-4c1b-9a57-3f2a6c1d9e10.pdf";
     Print "Temporary file removed: uploads/0b0e7a3c-5d2f-4c1b-9a57-3f2a6c1d9e10.pdf"].
Proof. vm_compute. reflexivity. Qed.

(** ** Strings *)

Lemma app_cons c (s t : string) : String c s +:+ t = String c (s +:+ t).
Proof. reflexivity. Qed.

Lemma startswith_spec s p :
  Str.startswith s p = true <-> exists rest, s = p +:+ rest.
Proof.
  revert s. induction p as [|a p IH]; intros s; simpl.
  - split; [intros _; exists s; reflexivity | intros _; destruct s; reflexivity].
  - destruct s as [|b s].
    + split; [done | intros [rest Hrest]; discriminate].
    + simpl. setoid_rewrite app_cons. destruct (Ascii.eqb a b) eqn:E.
      * apply Ascii.eqb_eq in E as ->. rewrite IH.
        split; intros [rest Hrest]; exists rest; congruence.
      * apply Ascii.eqb_neq in E.
        split; [done | intros [rest Hrest]; congruence].
Qed.

(** [Str.contains] is Python's substring test. *)
Lemma contains_spec k s :
  Str.contains k s = true <-> exists pre post, s = pre +:+ k +:+ post.
Proof.
  induction s as [|c s IH].
  - change (Str.contains k "") with (Str.startswith "" k || false).
    rewrite orb_false_r, startswith_spec. split.
    + intros [rest Hrest]. by exists "", rest.
    + intros [pre [post Heq]]. destruct pre; [by exists post | discriminate].
  - change (Str.contains k (String c s))
      with (Str.startswith (String c s) k || Str.contains k s).
    rewrite orb_true_iff, startswith_spec, IH. split.
    + intros [[rest Hrest] | [pre [post Heq]]].
      * by exists "", rest.
      * exists (String c pre), post. rewrite app_cons. by rewrite Heq.
    + intros [pre [post Heq]]. destruct pre as [|c' pre].
      * left. by exists post.
      * right. exists pre, post. rewrite app_cons in Heq. congruence.
Qed.

Lemma endswith_spec s suf :
  Str.endswith s suf = true <-> exists pre, s = pre +:+ suf.
Proof.
  induction s as [|c s IH].
  - change (Str.endswith "" suf) with (String.eqb "" suf || false).
    rewrite orb_false_r, String.eqb_eq. split.
    + intros <-. by exists "".
    + intros [pre Heq]. destruct pre; [done | discriminate].
  - change (Str.endswith (String c s) suf)
      with (String.eqb (String c s) suf || Str.endswith s suf).
    rewrite orb_true_iff, String.eqb_eq, IH. split.
    + intros [<- | [pre Heq]]; [by exists "" |].
      exists (String c pre). rewrite app_cons. by rewrite Heq.
    + intros [pre Heq]. destruct pre as [|c' pre].
      * by left.
      * right. exists pre. rewrite app_cons in Heq. congruence.
Qed.

Lemma is_empty_true s : Str.is_empty s = true <-> s = "".
Proof. by destruct s. Qed.

(** ** The findings filter *)

Lemma mentions_keyword_spec sentence :
  mentions_keyword sentence = true <->
  exists keyword, In keyword keywords /\ Str.contains keyword (Str.lower sentence) = true.
Proof. unfold mentions_keyword. apply existsb_exists. Qed.

(** The loop appends the matching sentences to what it was given. *)
Lemma collect_findings_filter findings sentences :
  collect_findings findings sentences
  = findings ++ List.filter mentions_keyword sentences.
Proof.
  revert findings. induction sentences as [|s rest IH]; intros findings; simpl.
  - by rewrite app_nil_r.
  - destruct (mentions_keyword s); rewrite IH; [by rewrite <- app_assoc | done].
Qed.

Lemma filter_sublist {A} (f : A -> bool) (l : list A) : sublist (List.filter f l) l.
Proof.
  induction l as [|x l IH]; simpl; [constructor |].
  destruct (f x); by constructor.
Qed.

Lemma filter_all {A} (f : A -> bool) (l : list A) x :
  In x (List.filter f l) -> f x = true.
Proof. intros H. by apply filter_In in H as [_ H]. Qed.

(** ** Runs of the analyzer's methods

    Each method is a total function of the world: the lemmas below give
    its value and the world it leaves, by cases on what the external
    collaborators answer. *)
Ltac same_log :=
  unfold log; simpl; repeat (rewrite <- app_assoc; simpl).

Section Runs.

Variable ext : Externals.

Lemma extract_forensic_findings_run text w :
  extract_forensic_findings ext text w =
  match nlp ext text with
  | Ok doc =>
      (Ok (take 5 (List.filter mentions_keyword (sents doc))), log w [CallNlp text])
  | Raise e =>
      (Ok [], log w [CallNlp text; Print ("Error extracting findings: " +:+ e)])
  end.
Proof.
  unfold extract_forensic_findings, try_except, bind, lift, emit, print, emit, ret, log.
  simpl. destruct (nlp ext text) as [doc|e]; simpl.
  - by rewrite collect_findings_filter.
  - by rewrite <- app_assoc.
Qed.

Lemma extract_metadata_run text w :
  extract_metadata ext text w =
  match extract_entities ext text with
  | Ok entities =>
      (Ok (VDict [("dates", strs (take 3 (default [] (entities !! "DATE"))));
                  ("case_number", case_number_of entities);
                  ("people", strs (take 5 (default [] (entities !! "PERSON"))));
                  ("organizations", strs (take 3 (default [] (entities !! "ORG"))));
                  ("locations", strs (take 3 (default [] (entities !! "GPE"))))]),
       log w [CallExtractEntities text])
  | Raise e =>
      (Ok (VDict [("error", VStr e)]),
       log w [CallExtractEntities text; Print ("Error extracting metadata: " +:+ e)])
  end.
Proof.
  unfold extract_metadata, try_except, bind, lift, emit, print, emit, ret, log.
  simpl. destruct (extract_entities ext text) as [entities|e]; simpl.
  - unfold truthy_get, case_number_of.
    destruct (entities !! "CASE_ID") as [[|c rest]|]; reflexivity.
  - by rewrite <- app_assoc.
Qed.


Lemma extract_text_from_pdf_run path w :
  extract_text_from_pdf ext path w =
  match read_pdf ext (fs w) path with
  | Ok text => (Ok text, log w [FileOpen path])
  | Raise e =>
      (Ok "", log w [FileOpen path; Print ("Error extracting text from PDF: " +:+ e)])
  end.
Proof.
  unfold extract_text_from_pdf, try_except, bind, open_rb, lift, print, emit, ret,
    read_pdf, log.
  destruct (fs w !! path) as [bytes|]; simpl.
  - destruct (pdf_pages ext bytes) as [pages|e]; simpl.
    + destruct (join_pages pages) as [text|e]; simpl; [done | by rewrite <- app_assoc].
    + by rewrite <- app_assoc.
  - by rewrite <- app_assoc.
Qed.

Lemma extract_metadata_run' text w :
  extract_metadata ext text w = (Ok (metadata_of ext text), log w (metadata_events ext text)).
Proof.
  rewrite extract_metadata_run. unfold metadata_of, metadata_events.
  by destruct (extract_entities ext text).
Qed.

Lemma analyze_document_run path n w :
  analyze_document ext path n w =
  match read_pdf ext (fs w) path with
  | Raise e =>
      (Ok (failed "Could not extract text from PDF"),
       log w [FileOpen path; Print ("Error extracting text from PDF: " +:+ e)])
  | Ok text =>
      if Str.is_empty text
      then (Ok (failed "Could not extract text from PDF"), log w [FileOpen path])
      else (Ok (pipeline ext text n).1, log w (FileOpen path :: (pipeline ext text n).2))
  end.
Proof.
  unfold analyze_document, try_except at 1, bind at 1.
  rewrite extract_text_from_pdf_run.
  destruct (read_pdf ext (fs w) path) as [text|e]; [|reflexivity].
  destruct (Str.is_empty text) eqn:Hempty; [reflexivity|].
  unfold pipeline, bind, lift, emit, print, emit, ret.
  destruct (preprocess_text ext text) as [pre|e]; simpl.
  2: { by same_log. }
  rewrite extract_metadata_run'. simpl.
  destruct (summarize ext text summary_method n) as [summary|e]; simpl.
  2: { by same_log. }
  rewrite extract_forensic_findings_run.
  destruct (nlp ext text) as [doc|e]; simpl.
  2: { by same_log. }
  destruct (nlp ext summary) as [sdoc|e]; simpl; by same_log.
Qed.

End Runs.

Section RouteRuns.

Variable ext : Externals.

Lemma analyze_document_analysis path n w :
  analyze_document ext path n w =
  (Ok (analysis ext (fs w) path n).1, log w (analysis ext (fs w) path n).2).
Proof.
  rewrite analyze_document_run. unfold analysis.
  destruct (read_pdf ext (fs w) path) as [text|e]; [|done].
  by destruct (Str.is_empty text).
Qed.

Lemma pipeline_shape text n :
  error_shape (pipeline ext text n).1 \/ report_shape (pipeline ext text n).1.
Proof.
  unfold pipeline.
  destruct (preprocess_text ext text); [|left; by eexists].
  destruct (summarize ext text summary_method n) as [summary|]; [|left; by eexists].
  destruct (nlp ext text); [|left; by eexists].
  destruct (nlp ext summary); [|left; by eexists].
  right. split; [done|]. by eexists _, _.
Qed.

Lemma analysis_shape files0 path n :
  error_shape (analysis ext files0 path n).1 \/ report_shape (analysis ext files0 path n).1.
Proof.
  unfold analysis. destruct (read_pdf ext files0 path) as [text|]; [|left; by eexists].
  destruct (Str.is_empty text); [left; by eexists | apply pipeline_shape].
Qed.

Lemma has_key_field k v : has_key k v = false -> field k v = None.
Proof.
  destruct v; try done. simpl. by destruct (Dict.get k d).
Qed.

Lemma try_block_run req file w :
  try_except
    (process ext req file (upload_name ext) (upload_path ext))
    (fun e =>
       let* _ := print ("Exception in analyze_document: " +:+ e) in
       ret (jsonify (VDict [("error", VStr e)]) 500)) w
  = (Ok (attempt ext req file (fs w)).1,
     {| fs := saved ext file (fs w);
        trace := trace w ++ (attempt ext req file (fs w)).2 |}).
Proof.
  unfold try_except, process, bind at 1, file_save, attempt, saved.
  destruct (save_fault ext) as [[e [partial|]]|] eqn:Hsave.
  - simpl. unfold bind, print, emit, ret. simpl. by same_log.
  - simpl. unfold bind, print, emit, ret. simpl. by same_log.
  - unfold bind, print, emit. simpl.
    rewrite analyze_document_analysis. simpl.
    unfold requested_length.
    set (a := analysis ext _ _ _).
    destruct (analysis_shape (<[upload_path ext:=stream file]> (fs w)) (upload_path ext)
                (summary_length (default "auto" (form req !! "summary_detail"))))
      as [[e He] | [Hkey (stats & k & Hstats & Hk)]]; fold a in He || fold a in Hkey, Hstats.
    + rewrite He. simpl. unfold respond. simpl. by same_log.
    + rewrite Hkey. unfold getitem. rewrite Hstats. simpl. unfold bind. simpl.
      rewrite Hk. simpl. unfold respond. rewrite Hkey.
      unfold debug_line. rewrite (has_key_field _ _ Hkey), Hstats. simpl.
      rewrite Hk. by same_log.
Qed.

Lemma cleanup_run w :
  cleanup ext (upload_path ext) w =
  (Ok tt, {| fs := cleaned ext (fs w);
             trace := trace w ++ cleanup_events ext (fs w) |}).
Proof.
  unfold cleanup, bind, path_exists, try_except, os_remove, cleaned, cleanup_events.
  destruct w as [files0 tr]. simpl.
  destruct (files0 !! upload_path ext) as [bytes|] eqn:Hthere; simpl.
  - destruct (remove_fault ext) as [e|]; simpl.
    + unfold print, emit. simpl. by same_log.
    + rewrite Hthere. unfold print, emit. simpl. by same_log.
  - unfold ret. by rewrite app_nil_r.
Qed.

(** The route on a request whose upload passes the checks. *)
Lemma api_analyze_run req file w :
  upload req = Some file ->
  api_analyze ext req w =
  (Ok (attempt ext req file (fs w)).1,
   {| fs := cleaned ext (saved ext file (fs w));
      trace := trace w ++ (attempt ext req file (fs w)).2
                       ++ cleanup_events ext (saved ext file (fs w)) |}).
Proof.
  unfold upload, api_analyze. intros Hup.
  destruct (files req !! "file") as [file'|]; [|done].
  destruct (String.eqb (filename file') "") eqn:Hname; [done|].
  assert (Str.is_empty (filename file') = false) as ->.
  { destruct (filename file'); [done | reflexivity]. }
  simpl in *. destruct (Str.endswith (filename file') ".pdf"); [|done].
  injection Hup as ->. unfold finally.
  change (uuid4 ext +:+ ".pdf") with (upload_name ext).
  change (path_join UPLOAD_FOLDER (upload_name ext)) with (upload_path ext).
  rewrite try_block_run, cleanup_run. simpl. by rewrite <- app_assoc.
Qed.

(** The route on a request that fails one of the checks. *)
Lemma api_analyze_rejected req w :
  upload req = None ->
  exists msg line,
    api_analyze ext req w =
    (Ok (jsonify (failed msg) 400), log w [Print line]).
Proof.
  unfold upload, api_analyze. intros Hup.
  destruct (files req !! "file") as [file|]; [|by eexists _, _].
  destruct (String.eqb (filename file) "") eqn:Hname; [by eexists _, _|].
  assert (Str.is_empty (filename file) = false) as ->.
  { destruct (filename file); [done | reflexivity]. }
  simpl in *. destruct (Str.endswith (filename file) ".pdf"); [done|].
  by eexists _, _.
Qed.

End RouteRuns.

(** * The specification's claims *)

(** ** Findings filter *)

(** The test of the code decides [flagged]. *)
Lemma mentions_keyword_flagged sentence :
  mentions_keyword sentence = true <-> flagged sentence.
Proof.
  rewrite mentions_keyword_spec. unfold flagged. split.
  - intros (keyword & Hin & Hfound).
    apply contains_spec in Hfound as (before & after & Hsplit).
    by exists keyword, before, after.
  - intros (keyword & before & after & Hin & Hsplit).
    exists keyword. split; [exact Hin|].
    apply contains_spec. by exists before, after.
Qed.

#[global] Instance flagged_dec sentence : Decision (flagged sentence).
Proof.
  destruct (mentions_keyword sentence) eqn:Htest.
  - left. by apply mentions_keyword_flagged.
  - right. intros Hflagged. apply mentions_keyword_flagged in Hflagged. congruence.
Defined.

(** The sentences the code keeps are the flagged ones, in order. *)
Lemma filter_mentions_flagged sentences :
  List.filter mentions_keyword sentences = filter flagged sentences.
Proof.
  induction sentences as [|s rest IH]; [reflexivity|].
  rewrite filter_cons. simpl. rewrite IH.
  destruct (mentions_keyword s) eqn:Htest; destruct (decide (flagged s)) as [Hyes|Hno];
    try reflexivity.
  - exfalso. apply Hno. by apply mentions_keyword_flagged.
  - apply mentions_keyword_flagged in Hyes. congruence.
Qed.

(** C2. For every input text, [extract_forensic_findings] returns
    normally with at most 5 sentences; each of them contains, once
    lowercased, one of the 14 fixed keywords; and they are the first 5
    flagged sentences of the model's segmentation of the text, in the
    order of the document (no sentence at all when the model fails):
    a flagged sentence of the segmentation is returned unless five
    flagged sentences have been returned already. *)
Theorem findings_first_five_matches ext text w :
  exists findings w',
    extract_forensic_findings ext text w = (Ok findings, w') /\
    List.length findings <= 5 /\
    List.length keywords = 14 /\
    (forall sentence, In sentence findings ->
       exists keyword,
         In keyword keywords /\ Str.contains keyword (Str.lower sentence) = true) /\
    match nlp ext text with
    | Ok doc =>
        sublist findings (sents doc) /\
        findings = take 5 (List.filter mentions_keyword (sents doc)) /\
        findings = take 5 (filter flagged (sents doc)) /\
        (forall sentence, In sentence findings -> flagged sentence) /\
        (forall sentence,
           In sentence (sents doc) -> flagged sentence ->
           In sentence findings \/ List.length findings = 5)
    | Raise _ => findings = []
    end.
Proof.
  rewrite extract_forensic_findings_run.
  destruct (nlp ext text) as [doc|e]; eexists _, _; (split; [reflexivity|]).
  - assert (forall sentence,
              In sentence (take 5 (List.filter mentions_keyword (sents doc))) ->
              mentions_keyword sentence = true) as Hall.
    { intros sentence Hin. apply (filter_all mentions_keyword (sents doc)).
      apply list_elem_of_In. apply list_elem_of_In in Hin.
      eapply elem_of_sublist; [eassumption | apply sublist_take]. }
    split; [rewrite length_take; lia|]. split; [reflexivity|]. split.
    + intros sentence Hin. apply mentions_keyword_spec. by apply Hall.
    + split; [etrans; [apply sublist_take | apply filter_sublist]|].
      split; [reflexivity|]. split; [by rewrite filter_mentions_flagged|]. split.
      * intros sentence Hin. apply mentions_keyword_flagged. by apply Hall.
      * intros sentence Hin Hflagged.
        destruct (decide (List.length (List.filter mentions_keyword (sents doc)) <= 5))
          as [Hfew|Hmany].
        -- left. rewrite take_ge by exact Hfew. apply filter_In. split; [exact Hin|].
           by apply mentions_keyword_flagged.
        -- right. rewrite length_take. lia.
  - split; [simpl; lia|]. split; [reflexivity|]. split; [intros ? []|reflexivity].
Qed.

(** The filter at work: the flagged sentences come back, the others do
    not, whatever the case of their letters. *)
Example findings_of_a_report :
  (extract_forensic_findings
     {| extract_entities := extract_entities Sample.ext;
        preprocess_text := preprocess_text Sample.ext;
        summarize := summarize Sample.ext;
        nlp := fun _ =>
          Ok {| tokens := [];
                sents := ["Sample A Tested Positive."; "The weather was fine.";
                          "Results follow."; "We CONCLUDE nothing.";
                          "A rematch of prints."; "No probability given.";
                          "The comparison failed."; "An unrelated remark."] |};
        pdf_pages := pdf_pages Sample.ext;
        uuid4 := uuid4 Sample.ext;
        now_isoformat := now_isoformat Sample.ext;
        save_fault := None;
        remove_fault := None |}
     "any text" Sample.world).1
  = Ok ["Sample A Tested Positive."; "Results follow."; "We CONCLUDE nothing.";
        "A rematch of prints."; "No probability given."].
Proof. reflexivity. Qed.

(** ** Metadata *)

(** C3. For every input text and every answer of the entity extractor,
    [extract_metadata] returns normally, and the metadata has at most 3
    dates, 5 people, 3 organizations and 3 locations: when the extractor
    answers, each list is the prefix of that length of what it emitted. *)
Theorem metadata_lists_truncated ext text w :
  exists metadata w',
    extract_metadata ext text w = (Ok metadata, w') /\
    List.length (entries "dates" metadata) <= 3 /\
    List.length (entries "people" metadata) <= 5 /\
    List.length (entries "organizations" metadata) <= 3 /\
    List.length (entries "locations" metadata) <= 3 /\
    match extract_entities ext text with
    | Ok entities =>
        field "dates" metadata = Some (strs (take 3 (default [] (entities !! "DATE")))) /\
        field "people" metadata = Some (strs (take 5 (default [] (entities !! "PERSON")))) /\
        field "organizations" metadata
          = Some (strs (take 3 (default [] (entities !! "ORG")))) /\
        field "locations" metadata = Some (strs (take 3 (default [] (entities !! "GPE"))))
    | Raise e => metadata = VDict [("error", VStr e)]
    end.
Proof.
  rewrite extract_metadata_run.
  destruct (extract_entities ext text) as [entities|e]; eexists _, _;
    (split; [reflexivity|]).
  - unfold entries, strs. simpl.
    rewrite !length_fmap, !length_take. repeat split; lia.
  - unfold entries. simpl. repeat split; lia.
Qed.

(** C4, as the code has it. When the entity extractor answers,
    [case_number] is the first CASE_ID entity if there is one, and is
    [None] (JSON [null]) if the extractor reports no CASE_ID entity,
    be it by a missing key or by an empty list. *)
Theorem case_number_first_or_none ext text w entities :
  extract_entities ext text = Ok entities ->
  exists metadata w',
    extract_metadata ext text w = (Ok metadata, w') /\
    field "case_number" metadata
    = Some (match entities !! "CASE_ID" with
            | Some (first :: _) => VStr first
            | _ => VNone
            end).
Proof.
  intros Hentities. rewrite extract_metadata_run, Hentities.
  eexists _, _. split; reflexivity.
Qed.

Lemma case_number_first_or_none_witness :
  exists metadata w',
    extract_metadata Sample.ext "Lab report" Sample.world = (Ok metadata, w') /\
    field "case_number" metadata = Some VNone.
Proof.
  apply (case_number_first_or_none Sample.ext "Lab report" Sample.world Sample.found).
  reflexivity.
Defined.

(** C4, as stated, fails: with no CASE_ID entity the field is not the
    string "Unknown". *)
Lemma case_number_is_not_unknown :
  ~ (forall ext text w entities metadata w',
       extract_entities ext text = Ok entities ->
       entities !! "CASE_ID" = None ->
       extract_metadata ext text w = (Ok metadata, w') ->
       field "case_number" metadata = Some (VStr "Unknown")).
Proof.
  intros Hclaim.
  specialize (Hclaim Sample.ext "Lab report" Sample.world Sample.found _ _
                eq_refl eq_refl eq_refl).
  discriminate Hclaim.
Qed.

(** ** Text extraction *)

Lemma join_pages_all_ok texts : join_pages (Ok <$> texts) = Ok (Str.join texts).
Proof.
  induction texts as [|t texts IH]; csimpl; [done|]. by rewrite IH.
Qed.

Lemma join_pages_one_raises pages e :
  In (Raise e) pages -> exists e', join_pages pages = Raise e'.
Proof.
  induction pages as [|[t|e0] pages IH]; simpl; intros Hin.
  - destruct Hin.
  - destruct Hin as [Heq|Hin]; [discriminate|].
    destruct (IH Hin) as [e' ->]. by exists e'.
  - by exists e0.
Qed.

(** C6. For every file path, [extract_text_from_pdf] returns normally:
    it returns the concatenation of the texts of the pages, in page
    order, when the file opens, parses and every page yields its text,
    and the empty string when the file is missing, the reader fails or a
    page fails; and whenever it returns the empty string,
    [analyze_document] returns the error result at once, in the very
    world the extraction left, with no later stage run. *)
Theorem extraction_never_raises_and_fails_fast ext path n w :
  exists text w',
    extract_text_from_pdf ext path w = (Ok text, w') /\
    (forall bytes texts,
       fs w !! path = Some bytes -> pdf_pages ext bytes = Ok (Ok <$> texts) ->
       text = Str.join texts) /\
    (fs w !! path = None -> text = "") /\
    (forall bytes e,
       fs w !! path = Some bytes -> pdf_pages ext bytes = Raise e -> text = "") /\
    (forall bytes pages e,
       fs w !! path = Some bytes -> pdf_pages ext bytes = Ok pages ->
       In (Raise e) pages -> text = "") /\
    (text = "" ->
     analyze_document ext path n w
     = (Ok (VDict [("error", VStr "Could not extract text from PDF")]), w')).
Proof.
  rewrite analyze_document_run, extract_text_from_pdf_run. unfold read_pdf.
  destruct (fs w !! path) as [bytes|] eqn:Hfile.
  - destruct (pdf_pages ext bytes) as [pages|e] eqn:Hpages.
    + destruct (join_pages pages) as [text|e] eqn:Hjoin.
      * eexists _, _. split; [reflexivity|].
        split; [|split; [|split; [|split]]].
        -- intros b texts [= <-] Hp. rewrite Hp in Hpages. injection Hpages as <-.
           rewrite join_pages_all_ok in Hjoin. congruence.
        -- done.
        -- intros b e [= <-] Hp. congruence.
        -- intros b pages' e [= <-] Hp Hin. rewrite Hp in Hpages.
           injection Hpages as ->.
           destruct (join_pages_one_raises _ _ Hin) as [e' He']. congruence.
        -- by intros ->.
      * eexists _, _. split; [reflexivity|].
        split; [|by repeat split].
        intros b texts [= <-] Hp. rewrite Hp in Hpages. injection Hpages as <-.
        rewrite join_pages_all_ok in Hjoin. congruence.
    + eexists _, _. split; [reflexivity|].
      split; [|by repeat split].
      intros b texts [= <-] Hp. congruence.
  - eexists _, _. split; [reflexivity|].
    split; [|by repeat split].
    intros b texts Hb. congruence.
Qed.

(** ** Upload validation *)

(** C7. A request with no [file] part is answered 400 "No file part";
    one whose file has an empty name, 400 "No selected file"; one whose
    file name is not empty and does not end in ".pdf", 400 "File must be
    a PDF".  In the three cases the route only prints a line: nothing is
    saved and no stage of the analysis is called. *)
Theorem invalid_upload_rejected ext req w :
  (files req !! "file" = None ->
   api_analyze ext req w
   = (Ok {| status := 400; body := VDict [("error", VStr "No file part")] |},
      {| fs := fs w; trace := trace w ++ [Print "No file part in request"] |})) /\
  (forall file,
     files req !! "file" = Some file -> filename file = "" ->
     api_analyze ext req w
     = (Ok {| status := 400; body := VDict [("error", VStr "No selected file")] |},
        {| fs := fs w; trace := trace w ++ [Print "No selected file"] |})) /\
  (forall file,
     files req !! "file" = Some file -> filename file <> "" ->
     Str.endswith (filename file) ".pdf" = false ->
     api_analyze ext req w
     = (Ok {| status := 400; body := VDict [("error", VStr "File must be a PDF")] |},
        {| fs := fs w; trace := trace w ++ [Print "File must be a PDF"] |})).
Proof.
  unfold api_analyze. repeat split.
  - by intros ->.
  - intros file -> ->. reflexivity.
  - intros file -> Hname Hsuffix. rewrite Hsuffix.
    destruct (String.eqb_spec (filename file) ""); [done|].
    by rewrite andb_false_r.
Qed.

Lemma invalid_upload_rejected_witness :
  api_analyze Sample.ext Sample.wrong_suffix Sample.world
  = (Ok {| status := 400; body := VDict [("error", VStr "File must be a PDF")] |},
     {| fs := ∅; trace := [Print "File must be a PDF"] |}).
Proof.
  destruct (invalid_upload_rejected Sample.ext Sample.wrong_suffix Sample.world)
    as (_ & _ & Hsuffix).
  apply (Hsuffix {| filename := "notes.PDF"; stream := "x" |}).
  - reflexivity.
  - simpl. discriminate.
  - reflexivity.
Defined.

(** ** Target length of the summary *)

Ltac in_events :=
  repeat (rewrite in_app_iff in * || simpl in * );
  intuition (try discriminate; try congruence).

Lemma metadata_events_no_summarize ext text t m k :
  ~ In (CallSummarize t m k) (metadata_events ext text).
Proof.
  unfold metadata_events. destruct (extract_entities ext text); in_events.
Qed.

Lemma pipeline_summarize_calls ext text n t m k :
  In (CallSummarize t m k) (pipeline ext text n).2 ->
  t = text /\ m = summary_method /\ k = n.
Proof.
  pose proof (metadata_events_no_summarize ext text t m k) as Hmeta.
  unfold pipeline.
  destruct (preprocess_text ext text); [|in_events].
  destruct (summarize ext text summary_method n) as [summary|]; [|in_events].
  destruct (nlp ext text); [|in_events].
  destruct (nlp ext summary); in_events.
Qed.

Lemma pipeline_report_summarized ext text n :
  report_shape (pipeline ext text n).1 ->
  In (CallSummarize text summary_method n) (pipeline ext text n).2.
Proof.
  unfold pipeline, report_shape.
  destruct (preprocess_text ext text); [|by intros [? _]].
  destruct (summarize ext text summary_method n) as [summary|]; [|by intros [? _]].
  destruct (nlp ext text); [|by intros [? _]].
  destruct (nlp ext summary); [|by intros [? _]].
  intros _. in_events.
Qed.

Lemma analysis_summarize_calls ext files0 path n t m k :
  In (CallSummarize t m k) (analysis ext files0 path n).2 ->
  m = summary_method /\ k = n.
Proof.
  unfold analysis. destruct (read_pdf ext files0 path) as [text|]; [|in_events].
  destruct (Str.is_empty text); [in_events|].
  intros [Heq|Hin]; [discriminate|].
  by apply pipeline_summarize_calls in Hin as (_ & ? & ?).
Qed.

Lemma analysis_report_summarized ext files0 path n :
  report_shape (analysis ext files0 path n).1 ->
  exists text, In (CallSummarize text summary_method n) (analysis ext files0 path n).2.
Proof.
  unfold analysis. destruct (read_pdf ext files0 path) as [text|]; [|by intros [? _]].
  destruct (Str.is_empty text); [by intros [? _]|].
  intros Hreport. exists text. right. by apply pipeline_report_summarized.
Qed.

Lemma cleanup_events_no_summarize ext files0 t m k :
  ~ In (CallSummarize t m k) (cleanup_events ext files0).
Proof.
  unfold cleanup_events.
  destruct (files0 !! upload_path ext), (remove_fault ext); in_events.
Qed.

Lemma respond_ok_report ext file result :
  error_shape result \/ report_shape result ->
  status (respond ext file result) = 200 -> report_shape result.
Proof.
  unfold respond. intros [[e ->]|Hreport]; [discriminate | done].
Qed.

Lemma field_setitem_eq d key x : field key (setitem (VDict d) key x) = Some x.
Proof.
  simpl. induction d as [|[k v] d IH]; simpl.
  - by rewrite String.eqb_refl.
  - destruct (String.eqb key k) eqn:Hk; simpl; rewrite ?String.eqb_refl, ?Hk; done.
Qed.

Lemma field_setitem_ne d key key' x :
  key' <> key -> field key' (setitem (VDict d) key x) = field key' (VDict d).
Proof.
  intros Hne. simpl. induction d as [|[k v] d IH]; simpl.
  - by apply String.eqb_neq in Hne as ->.
  - destruct (String.eqb key k) eqn:Hk; simpl.
    + apply String.eqb_eq in Hk as <-. by apply String.eqb_neq in Hne as ->.
    + by rewrite IH.
Qed.

Lemma report_is_dict r : report_shape r -> exists d, r = VDict d.
Proof.
  intros [_ (stats & k & Hstats & _)]. destruct r; try discriminate. by eexists.
Qed.

Lemma read_pdf_saved ext file files0 pages :
  save_fault ext = None ->
  pdf_pages ext (stream file) = Ok pages ->
  read_pdf ext (saved ext file files0) (upload_path ext) = join_pages pages.
Proof.
  intros Hsave Hpages. unfold read_pdf, saved.
  by rewrite Hsave, lookup_insert_eq, Hpages.
Qed.

Lemma pipeline_reaches_summarizer ext text n cleaned_text :
  preprocess_text ext text = Ok cleaned_text ->
  In (CallSummarize text summary_method n) (pipeline ext text n).2.
Proof.
  unfold pipeline. intros ->.
  destruct (summarize ext text summary_method n) as [summary|]; [|in_events].
  destruct (nlp ext text); [|in_events].
  destruct (nlp ext summary); in_events.
Qed.

Lemma pipeline_report_summary ext text n :
  report_shape (pipeline ext text n).1 ->
  exists summary,
    summarize ext text summary_method n = Ok summary /\
    field "summary" (pipeline ext text n).1 = Some (VStr summary).
Proof.
  unfold pipeline, report_shape.
  destruct (preprocess_text ext text); [|by intros [? _]].
  destruct (summarize ext text summary_method n) as [summary|]; [|by intros [? _]].
  destruct (nlp ext text); [|by intros [? _]].
  destruct (nlp ext summary); [|by intros [? _]].
  intros _. by exists summary.
Qed.

Lemma analysis_report_summary ext files0 path n :
  report_shape (analysis ext files0 path n).1 ->
  exists text summary,
    In (CallSummarize text summary_method n) (analysis ext files0 path n).2 /\
    summarize ext text summary_method n = Ok summary /\
    field "summary" (analysis ext files0 path n).1 = Some (VStr summary).
Proof.
  unfold analysis. destruct (read_pdf ext files0 path) as [text|]; [|by intros [? _]].
  destruct (Str.is_empty text); [by intros [? _]|].
  intros Hreport. destruct (pipeline_report_summary ext text n Hreport) as (summary & ? & ?).
  exists text, summary. split; [|done]. right. by apply pipeline_report_summarized.
Qed.

(** C5. The [summary_detail] field of the form fixes the target length
    handed to the summarizer: 3 for 'brief', 5 for 'standard', 8 for
    'detailed', 12 for 'comprehensive', 5 for a missing field and for any
    other value.  Every call of the summarizer made for the request uses
    the 'hybrid' method and that length; the call is made, on the
    extracted text, whenever the upload is saved, yields a non-empty
    text and the preprocessing returns; and the summary of a request
    answered 200 is what the summarizer returned for that length. *)
Theorem summary_detail_sets_target_length ext req w :
  let detail := form req !! "summary_detail" in
  let n := summary_length (default "auto" detail) in
  (detail = Some "brief" -> n = 3) /\
  (detail = Some "standard" -> n = 5) /\
  (detail = Some "detailed" -> n = 8) /\
  (detail = Some "comprehensive" -> n = 12) /\
  (detail = None -> n = 5) /\
  (forall other,
     detail = Some other ->
     ~ In other ["brief"; "standard"; "detailed"; "comprehensive"] -> n = 5) /\
  exists r w' evs,
    api_analyze ext req w = (Ok r, w') /\
    trace w' = trace w ++ evs /\
    (forall text method top_n,
       In (CallSummarize text method top_n) evs -> method = "hybrid" /\ top_n = n) /\
    (status r = 200 -> exists text, In (CallSummarize text "hybrid" n) evs) /\
    (forall file pages text cleaned_text,
       upload req = Some file ->
       save_fault ext = None ->
       pdf_pages ext (stream file) = Ok pages ->
       join_pages pages = Ok text ->
       text <> "" ->
       preprocess_text ext text = Ok cleaned_text ->
       In (CallSummarize text "hybrid" n) evs) /\
    (status r = 200 ->
     exists text summary,
       In (CallSummarize text "hybrid" n) evs /\
       summarize ext text "hybrid" n = Ok summary /\
       field "summary" (body r) = Some (VStr summary)).
Proof.
  intros detail n. subst n.
  split; [by intros ->|]. split; [by intros ->|]. split; [by intros ->|].
  split; [by intros ->|]. split; [by intros ->|]. split.
  - intros other -> Hother. unfold summary_length. simpl in *.
    destruct (String.eqb_spec other "brief") as [->|_]; [exfalso; auto 6|].
    destruct (String.eqb_spec other "standard") as [->|_]; [exfalso; auto 6|].
    destruct (String.eqb_spec other "detailed") as [->|_]; [exfalso; auto 6|].
    destruct (String.eqb_spec other "comprehensive") as [->|_]; [exfalso; auto 6|].
    reflexivity.
  - destruct (upload req) as [file|] eqn:Hupload.
    + rewrite (api_analyze_run ext req file w Hupload).
      eexists _, _, _. split; [reflexivity|]. split; [reflexivity|].
      pose proof (cleanup_events_no_summarize ext (saved ext file (fs w))) as Hclean.
      unfold attempt. destruct (save_fault ext) as [[e partial]|] eqn:Hsave.
      * split; [|split; [discriminate|split; [intros; discriminate|discriminate]]].
        intros t m k Hin. exfalso. specialize (Hclean t m k). in_events.
      * unfold requested_length. fold detail.
        set (a := analysis ext _ _ _).
        assert (status (respond ext file a.1) = 200 -> report_shape a.1) as Hok200.
        { intros Hok. apply respond_ok_report in Hok; [done | apply analysis_shape]. }
        split; [|split; [|split]].
        -- intros t m k Hin. specialize (Hclean t m k). simpl in Hin.
           rewrite !in_app_iff in Hin. simpl in Hin.
           repeat (destruct Hin as [Hin|Hin]; [discriminate|]).
           destruct Hin as [[Hin|[Hin|[]]]|Hin]; [|discriminate|tauto].
           by apply analysis_summarize_calls in Hin.
        -- simpl. intros Hok. apply Hok200 in Hok.
           apply analysis_report_summarized in Hok as [text Htext].
           exists text. fold a in Htext. in_events.
        -- intros file' pages text cleaned_text [= <-] _ Hpages Hjoin Htext Hclean_text.
           assert (In (CallSummarize text "hybrid"
                         (summary_length (default "auto" detail))) a.2) as Hin.
           { subst a. unfold analysis.
             rewrite (read_pdf_saved ext file (fs w) pages Hsave Hpages), Hjoin.
             destruct (Str.is_empty text) eqn:Hempty;
               [by apply is_empty_true in Hempty|].
             right. by apply (pipeline_reaches_summarizer ext text _ cleaned_text). }
           in_events.
        -- simpl. intros Hok. pose proof (Hok200 Hok) as Hreport.
           destruct (analysis_report_summary _ _ _ _ Hreport)
             as (text & summary & Hin & Hsummary & Hfield).
           fold a in Hin, Hfield. exists text, summary.
           split; [in_events|]. split; [exact Hsummary|].
           unfold respond. destruct Hreport as [Hkey _]. rewrite Hkey.
           destruct (report_is_dict a.1) as [d Hd]; [by apply Hok200|].
           rewrite Hd in Hfield |- *. unfold jsonify. cbn [body].
           rewrite field_setitem_ne by discriminate. exact Hfield.
    + destruct (api_analyze_rejected ext req w Hupload) as (msg & line & ->).
      eexists _, _, _. split; [reflexivity|]. split; [reflexivity|].
      split; [|split; [discriminate|split; [intros; discriminate|discriminate]]].
      intros t m k Hin. in_events.
Qed.

Lemma summary_detail_sets_target_length_witness :
  exists r w' evs,
    api_analyze Sample.ext Sample.request Sample.world = (Ok r, w') /\
    trace w' = trace Sample.world ++ evs /\
    In (CallSummarize "Lab report (page 2)" "hybrid" 3) evs.
Proof.
  destruct (summary_detail_sets_target_length Sample.ext Sample.request Sample.world)
    as (Hbrief & _ & _ & _ & _ & _ & r & w' & evs & Hrun & Htrace & _ & _ & Hreached & _).
  exists r, w', evs. split; [exact Hrun|]. split; [exact Htrace|].
  rewrite <- (Hbrief eq_refl).
  apply (Hreached Sample.pdf [Ok "Lab report"; Ok " (page 2)"] "Lab report (page 2)"
           "lab report (page 2)"); try reflexivity.
  discriminate.
Defined.

(** ** Removal of the upload *)

Lemma cleaned_after_removal ext files0 :
  remove_fault ext = None -> cleaned ext files0 !! upload_path ext = None.
Proof.
  intros Hremove. unfold cleaned. rewrite Hremove.
  destruct (files0 !! upload_path ext) eqn:Hthere; [apply lookup_delete_eq | done].
Qed.

(** C8, as the code has it. For every request whose upload passes the
    checks, so that the route saves it, the route answers normally and,
    provided the deletion itself does not fail, the file no longer
    exists afterwards, whether the analysis succeeded, returned an error
    result or the saving raised; and the response is the same whether or
    not the deletion fails. *)
Theorem upload_removed_unless_deletion_fails ext req w file :
  upload req = Some file ->
  exists r w',
    api_analyze ext req w = (Ok r, w') /\
    (remove_fault ext = None -> fs w' !! upload_path ext = None) /\
    (forall fault, exists w'',
       api_analyze (with_remove_fault ext fault) req w = (Ok r, w'')).
Proof.
  intros Hupload. rewrite (api_analyze_run ext req file w Hupload).
  eexists _, _. split; [reflexivity|]. split.
  - simpl. apply cleaned_after_removal.
  - intros fault. rewrite (api_analyze_run _ req file w Hupload).
    eexists. reflexivity.
Qed.

Lemma upload_removed_unless_deletion_fails_witness :
  exists r w',
    api_analyze Sample.ext Sample.request Sample.world = (Ok r, w') /\
    (remove_fault Sample.ext = None -> fs w' !! upload_path Sample.ext = None) /\
    (forall fault, exists w'',
       api_analyze (with_remove_fault Sample.ext fault) Sample.request Sample.world
       = (Ok r, w'')).
Proof.
  apply (upload_removed_unless_deletion_fails
           Sample.ext Sample.request Sample.world Sample.pdf).
  reflexivity.
Defined.

(** C8, as stated, fails: when the operating system refuses the
    deletion, the saved upload is still there after the response. *)
Lemma upload_survives_failed_deletion :
  upload Sample.request = Some Sample.pdf /\
  In (FileSave (upload_path Sample.locked))
     (trace (api_analyze Sample.locked Sample.request Sample.world).2) /\
  fs (api_analyze Sample.locked Sample.request Sample.world).2
    !! upload_path Sample.locked = Some "Lab report".
Proof.
  split; [reflexivity|]. split; [vm_compute; auto | vm_compute; reflexivity].
Qed.

(** ** Inert inputs *)


Lemma attempt_response ext req file files0 :
  (attempt ext req file files0).1
  = match save_fault ext with
    | Some (e, _) => jsonify (failed e) 500
    | None =>
        respond ext file
          (analysis ext (saved ext file files0) (upload_path ext)
             (requested_length req)).1
    end.
Proof. unfold attempt. by destruct (save_fault ext) as [[e partial]|]. Qed.



Lemma pipeline_reads_raw_text ext text n ev :
  In ev (pipeline ext text n).2 -> reads ext text n ev.
Proof.
  unfold pipeline, metadata_events.
  destruct (preprocess_text ext text); [|in_events; subst; simpl; auto].
  destruct (summarize ext text summary_method n) as [summary|] eqn:Hsum;
    [|destruct (extract_entities ext text); in_events; subst; simpl; auto].
  destruct (nlp ext text);
    [|destruct (extract_entities ext text); in_events; subst; simpl; auto].
  destruct (nlp ext summary);
    destruct (extract_entities ext text); in_events; subst; simpl; auto.
Qed.

(** C10. If two preprocessors raise on the same texts, then whatever
    strings they return, [analyze_document] gives the same result and
    leaves the same world with either of them: the string returned by
    [preprocess_text] is not used.  After a successful extraction of a
    non-empty text, the entity extractor and the summarizer are called on
    that raw text, and the model on it and on the summary. *)
Theorem preprocessed_text_unused ext pp1 pp2 path n w :
  same_failures pp1 pp2 ->
  analyze_document (with_preprocess_text ext pp1) path n w
  = analyze_document (with_preprocess_text ext pp2) path n w /\
  forall text w1,
    extract_text_from_pdf ext path w = (Ok text, w1) -> text <> "" ->
    exists result w' evs,
      analyze_document ext path n w = (Ok result, w') /\
      trace w' = trace w1 ++ evs /\
      forall ev, In ev evs -> reads ext text n ev.
Proof.
  intros Hsame. split.
  - rewrite !analyze_document_analysis. unfold analysis.
    change (read_pdf (with_preprocess_text ext pp2)) with (read_pdf ext).
    change (read_pdf (with_preprocess_text ext pp1)) with (read_pdf ext).
    destruct (read_pdf ext (fs w) path) as [text|e]; [|reflexivity].
    destruct (Str.is_empty text); [reflexivity|].
    unfold pipeline. simpl. specialize (Hsame text).
    destruct (pp1 text), (pp2 text); try done. by subst.
  - intros text w1. rewrite extract_text_from_pdf_run, analyze_document_run.
    destruct (read_pdf ext (fs w) path) as [text'|e].
    + intros [= -> <-] Htext.
      destruct (Str.is_empty text) eqn:Hempty; [by apply is_empty_true in Hempty|].
      eexists _, _, _. split; [reflexivity|]. split.
      * simpl. by rewrite <- app_assoc.
      * apply pipeline_reads_raw_text.
    + by intros [= <- <-].
Qed.

Lemma preprocessed_text_unused_witness :
  analyze_document (with_preprocess_text Sample.ext (fun text => Ok (Str.lower text)))
    "uploads/a.pdf" 5 Sample.stored
  = analyze_document (with_preprocess_text Sample.ext (fun _ => Ok "redacted"))
      "uploads/a.pdf" 5 Sample.stored /\
  In (CallPreprocessText "Lab report (page 2)")
     (trace (analyze_document (with_preprocess_text Sample.ext (fun _ => Ok "redacted"))
               "uploads/a.pdf" 5 Sample.stored).2) /\
  field "summary"
    match (analyze_document (with_preprocess_text Sample.ext (fun _ => Ok "redacted"))
             "uploads/a.pdf" 5 Sample.stored).1 with
    | Ok result => result
    | Raise _ => VNone
    end = Some (VStr "Two words.") /\
  (analyze_document (with_preprocess_text Sample.ext (fun _ => Raise "no tokenizer"))
     "uploads/a.pdf" 5 Sample.stored).1
  = Ok (VDict [("error", VStr "no tokenizer")]).
Proof.
  split.
  - apply (preprocessed_text_unused Sample.ext
             (fun text => Ok (Str.lower text)) (fun _ => Ok "redacted")
             "uploads/a.pdf" 5 Sample.stored).
    intros text. exact I.
  - split; [vm_compute; auto 10|]. split; reflexivity.
Defined.

(** ** Failures of the pipeline *)

(** C1, as the code has it. The route never raises.  For a request
    whose upload is saved and yields a non-empty text, an exception
    raised by the preprocessing, by the summarizer, or by the model when
    it parses the text (for the findings and again for the statistics)
    or the summary is answered 500 with the message of the exception in
    the [error] field.  An exception raised by the entity extractor is
    not: it is returned inside the metadata, and the response is the 200
    of a successful analysis when the other stages succeed. *)
Theorem pipeline_failure_responses ext req w :
  exists r w',
    api_analyze ext req w = (Ok r, w') /\
    forall file pages text,
      upload req = Some file ->
      save_fault ext = None ->
      pdf_pages ext (stream file) = Ok pages ->
      join_pages pages = Ok text ->
      text <> "" ->
      let n := summary_length (default "auto" (form req !! "summary_detail")) in
      let failure e := {| status := 500; body := VDict [("error", VStr e)] |} in
      (forall e, preprocess_text ext text = Raise e -> r = failure e) /\
      (forall cleaned_text,
         preprocess_text ext text = Ok cleaned_text ->
         (forall e, summarize ext text "hybrid" n = Raise e -> r = failure e) /\
         (forall summary,
            summarize ext text "hybrid" n = Ok summary ->
            (forall e, nlp ext text = Raise e ->
               (extract_forensic_findings ext text w).1 = Ok [] /\ r = failure e) /\
            (forall doc,
               nlp ext text = Ok doc ->
               (forall e, nlp ext summary = Raise e -> r = failure e) /\
               (forall summary_doc e,
                  nlp ext summary = Ok summary_doc ->
                  extract_entities ext text = Raise e ->
                  status r = 200 /\
                  field "error" (body r) = None /\
                  field "metadata" (body r) = Some (VDict [("error", VStr e)]))))).
Proof.
  destruct (upload req) as [file|] eqn:Hupload.
  - rewrite (api_analyze_run ext req file w Hupload).
    eexists _, _. split; [reflexivity|].
    intros file' pages text [= <-] Hsave Hpages Hjoin Htext n failure.
    rewrite attempt_response, Hsave. unfold analysis.
    rewrite (read_pdf_saved ext file (fs w) pages Hsave Hpages), Hjoin.
    destruct (Str.is_empty text) eqn:Hempty; [by apply is_empty_true in Hempty|].
    unfold requested_length. fold n. unfold pipeline, summary_method.
    split; [by intros e ->|]. intros cleaned_text ->.
    split; [by intros e ->|]. intros summary ->.
    split.
    { intros e He. rewrite extract_forensic_findings_run, He. by split. }
    intros doc ->.
    split; [by intros e ->|]. intros summary_doc e -> Hentities.
    unfold metadata_of. rewrite Hentities. by repeat split.
  - destruct (api_analyze_rejected ext req w Hupload) as (msg & line & ->).
    eexists _, _. split; [reflexivity|]. intros; discriminate.
Qed.

Lemma pipeline_failure_responses_witness :
  exists r w',
    api_analyze Sample.broken_summarizer Sample.request Sample.world = (Ok r, w') /\
    r = {| status := 500; body := VDict [("error", VStr "empty vocabulary")] |}.
Proof.
  destruct (pipeline_failure_responses
              Sample.broken_summarizer Sample.request Sample.world)
    as (r & w' & Hrun & Hcases).
  exists r, w'. split; [exact Hrun|].
  destruct (Hcases Sample.pdf [Ok "Lab report"; Ok " (page 2)"] "Lab report (page 2)")
    as [_ Hrest]; try reflexivity; [discriminate|].
  destruct (Hrest "lab report (page 2)") as [Hsummarizer _]; [reflexivity|].
  apply Hsummarizer. reflexivity.
Defined.

(** C1, as stated, fails: an exception of the entity extractor is not
    answered 500, and its message is not in the [error] field of the
    body. *)
Lemma metadata_failure_is_not_500 :
  extract_entities Sample.broken_ner "Lab report (page 2)" = Raise "model not loaded" /\
  In (CallExtractEntities "Lab report (page 2)")
     (trace (api_analyze Sample.broken_ner Sample.request Sample.world).2) /\
  exists r,
    (api_analyze Sample.broken_ner Sample.request Sample.world).1 = Ok r /\
    status r = 200 /\
    field "error" (body r) = None /\
    field "metadata" (body r) = Some (VDict [("error", VStr "model not loaded")]).
Proof.
  split; [reflexivity|]. split; [vm_compute; auto 20|].
  eexists. split; [vm_compute; reflexivity|]. by repeat split.
Qed.

(** * Further properties of the code *)

(** ** The analyzer *)

Lemma pipeline_report_well_formed ext text n :
  report_shape (pipeline ext text n).1 -> well_formed_report (pipeline ext text n).1.
Proof.
  unfold pipeline, report_shape.
  destruct (preprocess_text ext text); [|by intros [? _]].
  destruct (summarize ext text summary_method n) as [summary|]; [|by intros [? _]].
  destruct (nlp ext text) as [doc|]; [|by intros [? _]].
  destruct (nlp ext summary) as [sdoc|]; [|by intros [? _]].
  intros _. eexists _, _, _, _, _, _. split; [reflexivity|].
  assert (List.length (take 5 (List.filter mentions_keyword (sents doc)))
          <= List.length (sents doc)) as Hle.
  { rewrite length_take. pose proof (filter_length_le mentions_keyword (sents doc)). lia. }
  split; [rewrite length_take; lia|]. split; [lia|]. split; lia.
Qed.

(** X1. [analyze_document] never raises and never changes a file.  Its
    result is either a dictionary with the single entry [error], or the
    report with the entries [metadata], [summary], [key_findings] and
    [statistics] and no [error] entry; in the report there are at most
    5 findings, no more findings than counted sentences, and the counts
    are not negative. *)
Theorem analyze_document_returns_error_or_report ext path n w :
  exists result w',
    analyze_document ext path n w = (Ok result, w') /\
    fs w' = fs w /\
    ((exists e, result = VDict [("error", VStr e)]) \/
     (well_formed_report result /\ has_key "error" result = false)).
Proof.
  rewrite analyze_document_analysis.
  eexists _, _. split; [reflexivity|]. split; [reflexivity|].
  unfold analysis. destruct (read_pdf ext (fs w) path) as [text|]; [|left; by eexists].
  destruct (Str.is_empty text); [left; by eexists|]. simpl.
  destruct (pipeline_shape ext text n) as [Herr|Hrep]; [by left|right].
  split; [by apply pipeline_report_well_formed | apply Hrep].
Qed.

(** X2. The stages of [analyze_document] run in order and the first
    exception ends the analysis.  After the extraction of a non-empty
    text: if [preprocess_text] raises, nothing else is called and the
    result carries its message; if the summarizer raises, the entity
    extractor has been called before and the model is never called. *)
Theorem stages_stop_at_first_failure ext path n w text w1 :
  extract_text_from_pdf ext path w = (Ok text, w1) ->
  text <> "" ->
  exists result w',
    analyze_document ext path n w = (Ok result, w') /\
    (forall e,
       preprocess_text ext text = Raise e ->
       result = VDict [("error", VStr e)] /\
       trace w' = trace w1 ++ [CallPreprocessText text;
                               Print ("Error analyzing document: " +:+ e)]) /\
    (forall cleaned_text e,
       preprocess_text ext text = Ok cleaned_text ->
       summarize ext text "hybrid" n = Raise e ->
       result = VDict [("error", VStr e)] /\
       exists evs,
         trace w' = trace w1 ++ evs /\
         In (CallExtractEntities text) evs /\
         forall t, ~ In (CallNlp t) evs).
Proof.
  rewrite extract_text_from_pdf_run, analyze_document_run.
  destruct (read_pdf ext (fs w) path) as [text'|e0]; [|by intros [= <- <-]].
  intros [= -> <-] Htext.
  destruct (Str.is_empty text) eqn:Hempty; [by apply is_empty_true in Hempty|].
  eexists _, _. split; [reflexivity|]. unfold pipeline, summary_method. split.
  - intros e ->. split; [reflexivity|]. by same_log.
  - intros cleaned_text e -> ->. split; [reflexivity|].
    eexists. split; [simpl; rewrite <- (app_assoc (trace w) [FileOpen path]); reflexivity|].
    unfold metadata_events. destruct (extract_entities ext text); in_events.
Qed.

Lemma stages_stop_at_first_failure_witness :
  exists result w',
    analyze_document Sample.broken_summarizer "uploads/a.pdf" 5
      {| fs := {[ "uploads/a.pdf" := "Lab report" ]}; trace := [] |} = (Ok result, w') /\
    result = VDict [("error", VStr "empty vocabulary")] /\
    forall t, ~ In (CallNlp t) (trace w').
Proof.
  destruct (stages_stop_at_first_failure Sample.broken_summarizer "uploads/a.pdf" 5
              {| fs := {[ "uploads/a.pdf" := "Lab report" ]}; trace := [] |}
              "Lab report (page 2)"
              {| fs := {[ "uploads/a.pdf" := "Lab report" ]};
                 trace := [FileOpen "uploads/a.pdf"] |})
    as (result & w' & Hrun & _ & Hsummarizer); [reflexivity | discriminate |].
  exists result, w'. split; [exact Hrun|].
  destruct (Hsummarizer "lab report (page 2)" "empty vocabulary")
    as (Hresult & evs & Htrace & _ & Hnlp); [reflexivity | reflexivity |].
  split; [exact Hresult|].
  intros t. rewrite Htrace. simpl. intros [Hopen|Hin]; [discriminate|].
  by apply (Hnlp t).
Defined.

(** ** The findings filter *)

(** X3. Nothing is dropped unless more than five sentences match: with
    at most five matching sentences the findings are all of them, and
    with five or more exactly five are returned. *)
Theorem findings_all_matches_up_to_five ext text w doc :
  nlp ext text = Ok doc ->
  let matches := List.filter mentions_keyword (sents doc) in
  exists findings w',
    extract_forensic_findings ext text w = (Ok findings, w') /\
    (List.length matches <= 5 -> findings = matches) /\
    (5 <= List.length matches -> List.length findings = 5).
Proof.
  intros Hdoc matches. rewrite extract_forensic_findings_run, Hdoc.
  eexists _, _. split; [reflexivity|]. fold matches. split.
  - intros Hfew. by apply take_ge.
  - intros Hmany. rewrite length_take. lia.
Qed.

Lemma findings_all_matches_up_to_five_witness :
  exists findings w',
    extract_forensic_findings Sample.ext "Lab report" Sample.world = (Ok findings, w') /\
    findings = ["The analysis shows a MATCH."].
Proof.
  destruct (findings_all_matches_up_to_five Sample.ext "Lab report" Sample.world
              (Sample.parse "Lab report") eq_refl)
    as (findings & w' & Hrun & Hfew & _).
  exists findings, w'. split; [exact Hrun|]. apply Hfew. simpl. lia.
Defined.

Lemma lower_app a b : Str.lower (a +:+ b) = Str.lower a +:+ Str.lower b.
Proof.
  induction a as [|c a IH]; [reflexivity|].
  rewrite app_cons. simpl. rewrite app_cons. by rewrite IH.
Qed.

Lemma string_app_assoc (a b c : string) : (a +:+ b) +:+ c = a +:+ (b +:+ c).
Proof.
  induction a as [|x a IH]; [reflexivity|]. rewrite !app_cons. by rewrite IH.
Qed.

(** X4. The keyword test looks for substrings of the lowercased
    sentence: a sentence is flagged exactly when its lowercased text
    splits as a prefix, one of the keywords and a suffix; hence any text
    that contains a flagged sentence is flagged as well. *)
Theorem flagged_iff_keyword_substring sentence :
  (mentions_keyword sentence = true <->
   exists keyword before after,
     In keyword keywords /\ Str.lower sentence = before +:+ keyword +:+ after) /\
  (mentions_keyword sentence = true ->
   forall left right, mentions_keyword (left +:+ sentence +:+ right) = true).
Proof.
  assert (mentions_keyword sentence = true <->
          exists keyword before after,
            In keyword keywords /\ Str.lower sentence = before +:+ keyword +:+ after)
    as Hiff.
  { rewrite mentions_keyword_spec. split.
    - intros (k & Hk & Hc). apply contains_spec in Hc as (pre & post & Heq).
      by exists k, pre, post.
    - intros (k & pre & post & Hk & Heq). exists k. split; [done|].
      apply contains_spec. by exists pre, post. }
  split; [exact Hiff|].
  intros Hflag left right. apply Hiff in Hflag as (k & pre & post & Hk & Heq).
  apply mentions_keyword_spec. exists k. split; [done|].
  apply contains_spec. exists (Str.lower left +:+ pre), (post +:+ Str.lower right).
  rewrite !lower_app, Heq. by rewrite !string_app_assoc.
Qed.

Lemma flagged_iff_keyword_substring_witness :
  mentions_keyword ("(1) " +:+ "No MATCH was found!" +:+ " [p. 3]") = true.
Proof.
  apply (flagged_iff_keyword_substring "No MATCH was found!"). reflexivity.
Defined.

(** ** Metadata *)

(** X5. When the entity extractor answers, a label it does not report
    gives an empty list, not an error, and a list within the bound of its
    field is returned whole, in the extractor's order. *)
Theorem metadata_missing_or_short_lists ext text w entities key label bound :
  extract_entities ext text = Ok entities ->
  In (key, label, bound) categories ->
  exists metadata w',
    extract_metadata ext text w = (Ok metadata, w') /\
    (entities !! label = None -> field key metadata = Some (VList [])) /\
    (forall found,
       entities !! label = Some found -> List.length found <= bound ->
       field key metadata = Some (strs found)).
Proof.
  intros Hentities Hin. rewrite extract_metadata_run, Hentities.
  eexists _, _. split; [reflexivity|].
  simpl in Hin.
  destruct Hin as [[= <- <- <-]|[[= <- <- <-]|[[= <- <- <-]|[[= <- <- <-]|[]]]]];
    (split; [by intros ->|]); intros found -> Hshort; simpl; by rewrite take_ge.
Qed.

Lemma metadata_missing_or_short_lists_witness :
  exists metadata w',
    extract_metadata Sample.ext "Lab report" Sample.world = (Ok metadata, w') /\
    field "organizations" metadata = Some (VList []) /\
    field "people" metadata = Some (strs ["Ada Lovelace"]).
Proof.
  destruct (metadata_missing_or_short_lists Sample.ext "Lab report" Sample.world
              Sample.found "organizations" "ORG" 3 eq_refl)
    as (metadata & w' & Hrun & Hmissing & _); [simpl; auto|].
  destruct (metadata_missing_or_short_lists Sample.ext "Lab report" Sample.world
              Sample.found "people" "PERSON" 5 eq_refl)
    as (metadata' & w'' & Hrun' & _ & Hshort); [simpl; auto|].
  exists metadata, w'. split; [exact Hrun|]. split; [by apply Hmissing|].
  assert (metadata' = metadata) as <- by congruence.
  apply Hshort; [reflexivity | simpl; lia].
Defined.

(** ** The route *)

Lemma upload_spec req file :
  upload req = Some file <->
  files req !! "file" = Some file /\ exists stem, filename file = stem +:+ ".pdf".
Proof.
  unfold upload. rewrite <- endswith_spec.
  destruct (files req !! "file") as [file'|]; [|split; [done | by intros [? _]]].
  destruct (Str.endswith (filename file') ".pdf") eqn:Hsuffix.
  - assert (String.eqb (filename file') "" = false) as ->.
    { apply String.eqb_neq. intros Hname. by rewrite Hname in Hsuffix. }
    simpl. split; [by intros [= ->] | by intros [[= ->] _]].
  - rewrite andb_false_r. split; [done | intros [[= ->] ?]; congruence].
Qed.

(** X6. The route always answers, with status 200, 400 or 500; the body
    has an [error] entry exactly when the status is not 200; and the
    status is 400 exactly when the request has no [file] part whose name
    ends in ".pdf". *)
Theorem route_status_and_error_entry ext req w :
  exists r w',
    api_analyze ext req w = (Ok r, w') /\
    (status r = 200 \/ status r = 400 \/ status r = 500) /\
    (has_key "error" (body r) = true <-> status r <> 200) /\
    (status r = 400 <->
     ~ exists file stem,
         files req !! "file" = Some file /\ filename file = stem +:+ ".pdf").
Proof.
  destruct (upload req) as [file|] eqn:Hupload.
  - rewrite (api_analyze_run ext req file w Hupload).
    eexists _, _. split; [reflexivity|]. simpl. rewrite attempt_response.
    assert (exists file stem,
              files req !! "file" = Some file /\ filename file = stem +:+ ".pdf")
      as Hpdf.
    { apply upload_spec in Hupload as [Hfile [stem Hstem]]. by exists file, stem. }
    destruct (save_fault ext) as [[e partial]|].
    + simpl. split; [auto|]. split; [split; [discriminate | done]|].
      split; [discriminate | tauto].
    + set (a := analysis ext _ _ _). unfold respond.
      destruct (analysis_shape ext (saved ext file (fs w)) (upload_path ext)
                  (requested_length req)) as [[e He]|Hreport]; fold a in He || fold a in Hreport.
      * rewrite He. simpl. split; [auto|]. split; [split; [discriminate | done]|].
        split; [discriminate | tauto].
      * destruct (report_is_dict _ Hreport) as [d Hd]. destruct Hreport as [Hkey _].
        rewrite Hkey. simpl. split; [auto|]. rewrite Hd in Hkey |- *.
        assert (has_key "error" (setitem (VDict d) "document" (VDict
                  [("filename", VStr (filename file));
                   ("analyzed_at", VStr (now_isoformat ext));
                   ("id", VStr (Str.split_head "." (upload_name ext)))])) = false) as ->.
        { pose proof (field_setitem_ne d "document" "error"
                        (VDict [("filename", VStr (filename file));
                                ("analyzed_at", VStr (now_isoformat ext));
                                ("id", VStr (Str.split_head "." (upload_name ext)))])
                        ltac:(discriminate)) as Hfield.
          apply has_key_field in Hkey. rewrite Hkey in Hfield.
          simpl in Hfield |- *. by rewrite Hfield. }
        split; [split; [discriminate | done]|]. split; [discriminate | tauto].
  - destruct (api_analyze_rejected ext req w Hupload) as (msg & line & ->).
    eexists _, _. split; [reflexivity|]. simpl. split; [auto|].
    split; [split; [discriminate | done]|]. split; [|done].
    intros _ (file & stem & Hfile & Hstem).
    assert (upload req = Some file) as Hup by (apply upload_spec; eauto).
    congruence.
Qed.

Lemma saved_frame ext file files0 p :
  p <> upload_path ext -> saved ext file files0 !! p = files0 !! p.
Proof.
  intros Hp. unfold saved.
  destruct (save_fault ext) as [[e [partial|]]|]; by rewrite ?lookup_insert_ne.
Qed.

Lemma cleaned_frame ext files0 p :
  p <> upload_path ext -> cleaned ext files0 !! p = files0 !! p.
Proof.
  intros Hp. unfold cleaned.
  destruct (files0 !! upload_path ext), (remove_fault ext); by rewrite ?lookup_delete_ne.
Qed.

(** X7. Whatever the request and its outcome, the route leaves every
    file other than the one it generates for the upload as it was. *)
Theorem route_leaves_other_files ext req w p :
  p <> upload_path ext ->
  fs (api_analyze ext req w).2 !! p = fs w !! p.
Proof.
  intros Hp. destruct (upload req) as [file|] eqn:Hupload.
  - rewrite (api_analyze_run ext req file w Hupload). simpl.
    by rewrite cleaned_frame, saved_frame.
  - by destruct (api_analyze_rejected ext req w Hupload) as (msg & line & ->).
Qed.

Lemma route_leaves_other_files_witness :
  fs (api_analyze Sample.ext Sample.request
        {| fs := {[ "uploads/other.pdf" := "kept" ]}; trace := [] |}).2
    !! "uploads/other.pdf" = Some "kept".
Proof.
  rewrite (route_leaves_other_files Sample.ext Sample.request
             {| fs := {[ "uploads/other.pdf" := "kept" ]}; trace := [] |}
             "uploads/other.pdf"); [reflexivity | discriminate].
Defined.

(** X8. Saving and removing cancel out: when the deletion does not fail
    and no file exists yet at the generated path, the filesystem after
    the request is the filesystem before it, also when the saving fails
    after writing part of the file. *)
Theorem route_restores_filesystem ext req w :
  remove_fault ext = None ->
  fs w !! upload_path ext = None ->
  fs (api_analyze ext req w).2 = fs w.
Proof.
  intros Hremove Hfresh. apply map_eq. intros p.
  destruct (decide (p = upload_path ext)) as [->|Hp];
    [|by apply route_leaves_other_files].
  rewrite Hfresh. destruct (upload req) as [file|] eqn:Hupload.
  - rewrite (api_analyze_run ext req file w Hupload). simpl.
    by apply cleaned_after_removal.
  - by destruct (api_analyze_rejected ext req w Hupload) as (msg & line & ->).
Qed.

Lemma route_restores_filesystem_witness :
  fs (api_analyze Sample.ext Sample.request
        {| fs := {[ "uploads/other.pdf" := "kept" ]}; trace := [] |}).2
  = {[ "uploads/other.pdf" := "kept" ]}.
Proof.
  exact (route_restores_filesystem Sample.ext Sample.request
           {| fs := {[ "uploads/other.pdf" := "kept" ]}; trace := [] |}
           eq_refl eq_refl).
Defined.

Lemma pipeline_touches_no_file ext text n ev :
  In ev (pipeline ext text n).2 -> touched ev = None.
Proof.
  unfold pipeline, metadata_events.
  destruct (preprocess_text ext text); [|in_events; by subst].
  destruct (summarize ext text summary_method n) as [summary|];
    [|destruct (extract_entities ext text); in_events; by subst].
  destruct (nlp ext text);
    [|destruct (extract_entities ext text); in_events; by subst].
  destruct (nlp ext summary);
    destruct (extract_entities ext text); in_events; by subst.
Qed.

Lemma analysis_touches files0 ext path n ev p :
  In ev (analysis ext files0 path n).2 -> touched ev = Some p -> p = path.
Proof.
  unfold analysis. destruct (read_pdf ext files0 path) as [text|].
  - destruct (Str.is_empty text).
    + intros [<-|[]] [= <-]. reflexivity.
    + intros [<-|Hin]; [by intros [= <-]|].
      apply pipeline_touches_no_file in Hin. congruence.
  - intros [<-|[<-|[]]]; [by intros [= <-] | discriminate].
Qed.

(** X9. The name the client gives to the upload is never used as a
    path: every file the route saves, opens or removes while it handles
    a request is the one at [uploads/<uuid>.pdf]. *)
Theorem route_touches_only_generated_path ext req w :
  exists evs,
    trace (api_analyze ext req w).2 = trace w ++ evs /\
    forall ev p, In ev evs -> touched ev = Some p ->
      p = "uploads/" +:+ uuid4 ext +:+ ".pdf".
Proof.
  change ("uploads/" +:+ uuid4 ext +:+ ".pdf") with (upload_path ext).
  destruct (upload req) as [file|] eqn:Hupload.
  - rewrite (api_analyze_run ext req file w Hupload). simpl.
    eexists. split; [reflexivity|]. intros ev p Hin Hev.
    apply in_app_iff in Hin as [Hin|Hin].
    + unfold attempt in Hin. destruct (save_fault ext) as [[e partial]|].
      * destruct Hin as [<-|[<-|[]]]; [by injection Hev as <- | discriminate].
      * simpl in Hin. destruct Hin as [<-|Hin]; [by injection Hev as <-|].
        repeat (destruct Hin as [<-|Hin]; [discriminate|]).
        apply in_app_iff in Hin as [Hin|[<-|[]]]; [|discriminate].
        by apply (analysis_touches _ _ _ _ _ _ Hin).
    + unfold cleanup_events in Hin.
      destruct (saved ext file (fs w) !! upload_path ext), (remove_fault ext);
        simpl in Hin; try done;
        (destruct Hin as [<-|[<-|[]]]; [by injection Hev as <- | discriminate]).
  - destruct (api_analyze_rejected ext req w Hupload) as (msg & line & ->).
    eexists. split; [reflexivity|]. by intros ev p [<-|[]].
Qed.

(** X10. When saving the upload fails, the route answers 500 with the
    message of that failure and goes no further: the file is not opened
    and no helper of the analysis is called. *)
Theorem save_failure_skips_analysis ext req w file e partial :
  upload req = Some file ->
  save_fault ext = Some (e, partial) ->
  exists w' evs,
    api_analyze ext req w
    = (Ok {| status := 500; body := VDict [("error", VStr e)] |}, w') /\
    trace w' = trace w ++ evs /\
    forall ev, In ev evs -> is_call ev = false /\ forall p, ev <> FileOpen p.
Proof.
  intros Hupload Hsave. rewrite (api_analyze_run ext req file w Hupload).
  unfold attempt, cleanup_events. rewrite Hsave. simpl.
  eexists _, _. split; [reflexivity|]. split; [reflexivity|].
  intros ev Hin.
  destruct (saved ext file (fs w) !! upload_path ext), (remove_fault ext);
    simpl in Hin; intuition (subst; simpl; congruence).
Qed.

Lemma save_failure_skips_analysis_witness :
  exists w' evs,
    api_analyze
      {| extract_entities := extract_entities Sample.ext;
         preprocess_text := preprocess_text Sample.ext;
         summarize := summarize Sample.ext;
         nlp := nlp Sample.ext;
         pdf_pages := pdf_pages Sample.ext;
         uuid4 := uuid4 Sample.ext;
         now_isoformat := now_isoformat Sample.ext;
         save_fault := Some ("No space left on device", Some "Lab");
         remove_fault := None |}
      Sample.request Sample.world
    = (Ok {| status := 500;
             body := VDict [("error", VStr "No space left on device")] |}, w') /\
    trace w' = trace Sample.world ++ evs /\
    forall ev, In ev evs -> is_call ev = false /\ forall p, ev <> FileOpen p.
Proof.
  apply (save_failure_skips_analysis _ Sample.request Sample.world Sample.pdf
           "No space left on device" (Some "Lab")); reflexivity.
Defined.

(** X11. A saved upload from which no text comes out, because the
    reader fails, a page fails or the text is empty, is answered 500
    with the fixed message "Could not extract text from PDF": the
    message of the reader's exception is not in the response, and no
    helper of the analysis is called. *)
Theorem unreadable_pdf_fixed_message ext req w file :
  upload req = Some file ->
  save_fault ext = None ->
  match pdf_pages ext (stream file) with
  | Ok pages => join_pages pages = Ok "" \/ exists e, join_pages pages = Raise e
  | Raise _ => True
  end ->
  exists w' evs,
    api_analyze ext req w
    = (Ok {| status := 500;
             body := VDict [("error", VStr "Could not extract text from PDF")] |}, w') /\
    trace w' = trace w ++ evs /\
    forall ev, In ev evs -> is_call ev = false.
Proof.
  intros Hupload Hsave Hread. rewrite (api_analyze_run ext req file w Hupload).
  assert (exists evs0,
            analysis ext (saved ext file (fs w)) (upload_path ext) (requested_length req)
            = (failed "Could not extract text from PDF", evs0) /\
            forall ev, In ev evs0 -> is_call ev = false) as (evs0 & Ha & Hevs0).
  { unfold analysis, read_pdf, saved. rewrite Hsave, lookup_insert_eq.
    destruct (pdf_pages ext (stream file)) as [pages|e0].
    - destruct Hread as [->|[e1 ->]]; eexists; (split; [reflexivity|]);
        simpl; intuition (subst; reflexivity).
    - eexists. split; [reflexivity|]. simpl. intuition (subst; reflexivity). }
  unfold attempt. rewrite Hsave, Ha. simpl.
  eexists _, _. split; [reflexivity|]. split; [reflexivity|].
  intros ev Hin. unfold cleanup_events in Hin.
  repeat (destruct Hin as [<-|Hin]; [reflexivity|]).
  rewrite !in_app_iff in Hin. destruct Hin as [[Hin|[<-|[]]]|Hin]; [by apply Hevs0|done|].
  destruct (saved ext file (fs w) !! upload_path ext), (remove_fault ext);
    simpl in Hin; intuition (subst; reflexivity).
Qed.

Lemma unreadable_pdf_fixed_message_witness :
  exists w' evs,
    api_analyze
      {| extract_entities := extract_entities Sample.ext;
         preprocess_text := preprocess_text Sample.ext;
         summarize := summarize Sample.ext;
         nlp := nlp Sample.ext;
         pdf_pages := fun _ => Raise "EOF marker not found";
         uuid4 := uuid4 Sample.ext;
         now_isoformat := now_isoformat Sample.ext;
         save_fault := None;
         remove_fault := None |}
      Sample.request Sample.world
    = (Ok {| status := 500;
             body := VDict [("error", VStr "Could not extract text from PDF")] |}, w') /\
    trace w' = trace Sample.world ++ evs /\
    forall ev, In ev evs -> is_call ev = false.
Proof.
  apply (unreadable_pdf_fixed_message _ Sample.request Sample.world Sample.pdf);
    [reflexivity | reflexivity | exact I].
Defined.

(** X12. The response to a saved upload is the result of
    [analyze_document] on the saved file, for the target length of the
    form: the result itself with status 500 when it has an [error]
    entry, and otherwise, with status 200, the result with one more
    entry [document] and every other entry unchanged. *)
Theorem response_is_analysis_plus_document ext req w file :
  upload req = Some file ->
  save_fault ext = None ->
  exists r w' result w1 w2,
    api_analyze ext req w = (Ok r, w') /\
    fs w1 = <[upload_path ext := stream file]> (fs w) /\
    analyze_document ext (upload_path ext)
      (summary_length (default "auto" (form req !! "summary_detail"))) w1
    = (Ok result, w2) /\
    (has_key "error" result = true -> r = {| status := 500; body := result |}) /\
    (has_key "error" result = false ->
     status r = 200 /\
     field "document" (body r) = Some (document_entry ext file) /\
     forall key, key <> "document" -> field key (body r) = field key result).
Proof.
  intros Hupload Hsave. rewrite (api_analyze_run ext req file w Hupload).
  rewrite attempt_response, Hsave.
  exists (respond ext file
            (analysis ext (saved ext file (fs w)) (upload_path ext)
               (requested_length req)).1).
  eexists. exists (analysis ext (saved ext file (fs w)) (upload_path ext)
                     (requested_length req)).1.
  exists {| fs := saved ext file (fs w); trace := [] |}. eexists.
  split; [reflexivity|]. split; [unfold saved; by rewrite Hsave|].
  split; [by rewrite analyze_document_analysis|].
  set (a := analysis ext _ _ _). unfold respond. split.
  - by intros ->.
  - intros Hkey. rewrite Hkey. split; [reflexivity|].
    destruct (analysis_shape ext (saved ext file (fs w)) (upload_path ext)
                (requested_length req)) as [[e He]|Hreport];
      fold a in He || fold a in Hreport.
    + rewrite He in Hkey. discriminate.
    + destruct (report_is_dict _ Hreport) as [d Hd]. rewrite Hd. simpl body. split.
      * apply field_setitem_eq.
      * intros key Hne. by apply field_setitem_ne.
Qed.

Lemma response_is_analysis_plus_document_witness :
  exists r w' result w1 w2,
    api_analyze Sample.ext Sample.request Sample.world = (Ok r, w') /\
    fs w1 = <[upload_path Sample.ext := stream Sample.pdf]> (fs Sample.world) /\
    analyze_document Sample.ext (upload_path Sample.ext)
      (summary_length (default "auto" (form Sample.request !! "summary_detail"))) w1
    = (Ok result, w2) /\
    (has_key "error" result = true -> r = {| status := 500; body := result |}) /\
    (has_key "error" result = false ->
     status r = 200 /\
     field "document" (body r) = Some (document_entry Sample.ext Sample.pdf) /\
     forall key, key <> "document" -> field key (body r) = field key result).
Proof.
  apply (response_is_analysis_plus_document
           Sample.ext Sample.request Sample.world Sample.pdf); reflexivity.
Defined.

Lemma split_head_stem s t :
  Str.contains "." s = false -> Str.split_head "." (s +:+ "." +:+ t) = s.
Proof.
  induction s as [|c s IH]; [reflexivity|].
  change (Str.contains "." (String c s))
    with (Str.startswith (String c s) "." || Str.contains "." s).
  intros Hdot. apply orb_false_elim in Hdot as [Hc Hs].
  rewrite app_cons. cbn [Str.split_head].
  destruct (Ascii.eqb c ".") eqn:Hdotc.
  - apply Ascii.eqb_eq in Hdotc as ->. by destruct s.
  - by rewrite IH.
Qed.

Lemma success_document ext req w file r w' :
  upload req = Some file ->
  api_analyze ext req w = (Ok r, w') ->
  status r = 200 ->
  field "document" (body r) = Some (document_entry ext file).
Proof.
  intros Hupload. rewrite (api_analyze_run ext req file w Hupload).
  rewrite attempt_response. intros [= <- _].
  destruct (save_fault ext) as [[e partial]|]; [discriminate|].
  set (a := analysis ext _ _ _). unfold respond.
  destruct (analysis_shape ext (saved ext file (fs w)) (upload_path ext)
              (requested_length req)) as [[e He]|Hreport];
    fold a in He || fold a in Hreport.
  - rewrite He. discriminate.
  - destruct (report_is_dict _ Hreport) as [d Hd]. destruct Hreport as [-> _].
    intros _. rewrite Hd. apply field_setitem_eq.
Qed.

(** X13. In every 200 response the [document] entry names the file as
    the client did, carries the time of the analysis, and, for a
    generated identifier without a dot, as the strings of [uuid4] are,
    has that identifier as [id]: the suffix ".pdf" of the generated file
    name is cut off again. *)
Theorem document_id_is_generated_uuid ext req w file r w' :
  upload req = Some file ->
  api_analyze ext req w = (Ok r, w') ->
  status r = 200 ->
  Str.contains "." (uuid4 ext) = false ->
  field "document" (body r)
  = Some (VDict [("filename", VStr (filename file));
                 ("analyzed_at", VStr (now_isoformat ext));
                 ("id", VStr (uuid4 ext))]).
Proof.
  intros Hupload Hrun Hok Hdot.
  rewrite (success_document ext req w file r w' Hupload Hrun Hok).
  unfold document_entry.
  change (uuid4 ext +:+ ".pdf") with (uuid4 ext +:+ "." +:+ "pdf").
  by rewrite (split_head_stem (uuid4 ext) "pdf" Hdot).
Qed.

Lemma document_id_is_generated_uuid_witness :
  exists r w',
    api_analyze Sample.ext Sample.request Sample.world = (Ok r, w') /\
    field "document" (body r)
    = Some (VDict [("filename", VStr "report.pdf");
                   ("analyzed_at", VStr "2024-05-01T12:00:00");
                   ("id", VStr "0b0e7a3c-5d2f-4c1b-9a57-3f2a6c1d9e10")]).
Proof.
  destruct (api_analyze Sample.ext Sample.request Sample.world) as [[r|e] w'] eqn:Hrun.
  - exists r, w'. split; [reflexivity|].
    apply (document_id_is_generated_uuid Sample.ext Sample.request Sample.world
             Sample.pdf r w' eq_refl Hrun); [|reflexivity].
    vm_compute in Hrun. by injection Hrun as <- _.
  - vm_compute in Hrun. discriminate.
Defined.

(** ** Construction of the analyzer *)

Lemma discard_all order (s : gset string) :
  foldl (fun s term => discard term s) s order = s ∖ list_to_set order.
Proof.
  revert s. induction order as [|term order IH]; intros s; simpl.
  - by rewrite difference_empty_L.
  - rewrite IH. unfold discard. by rewrite difference_difference_l_L.
Qed.

(** X14. [__init__] changes the shared set of stop words, in whatever
    order the terms to keep are visited: afterwards none of the 11 terms
    is a stop word, whether or not it was one before, every other word
    is a stop word exactly if it was one before, and constructing a
    second analyzer changes nothing more. *)
Theorem init_discards_keep_terms order order' p :
  order ≡ₚ KEEP_TERMS ->
  order' ≡ₚ KEEP_TERMS ->
  let after := (init order p).2 in
  (forall term, In term KEEP_TERMS -> term ∉ Defaults_stop_words after) /\
  (forall word, ~ In word KEEP_TERMS ->
     (word ∈ Defaults_stop_words after <-> word ∈ Defaults_stop_words p)) /\
  stop_words (init order p).1 after = Defaults_stop_words after /\
  (init order' after).2 = after /\
  (init order' p).2 = after.
Proof.
  intros Horder Horder' after. subst after.
  unfold init, stop_words. cbn [fst snd Defaults_stop_words].
  rewrite !discard_all.
  assert (forall l : list string, l ≡ₚ KEEP_TERMS ->
            (list_to_set l : gset string) = list_to_set KEEP_TERMS) as Hset.
  { intros l Hl. apply set_eq. intros x. rewrite !elem_of_list_to_set. by rewrite Hl. }
  rewrite (Hset order Horder), (Hset order' Horder').
  split; [|split; [|split; [reflexivity|split]]].
  - intros term Hterm. apply list_elem_of_In in Hterm.
    rewrite elem_of_difference, elem_of_list_to_set. tauto.
  - intros word Hword. rewrite <- list_elem_of_In in Hword.
    rewrite elem_of_difference, elem_of_list_to_set. tauto.
  - f_equal. apply difference_twice_L.
  - reflexivity.
Qed.

Lemma init_discards_keep_terms_witness :
  "evidence" ∉ Defaults_stop_words
    (init (reverse KEEP_TERMS)
       {| Defaults_stop_words := {[ "the"; "evidence"; "case" ]} |}).2.
Proof.
  destruct (init_discards_keep_terms (reverse KEEP_TERMS) KEEP_TERMS
              {| Defaults_stop_words := {[ "the"; "evidence"; "case" ]} |})
    as (Hkeep & _).
  - apply reverse_Permutation.
  - reflexivity.
  - apply Hkeep. simpl. auto.
Defined.
